(* Verification model of src/backend/simple_agent.py (class SimpleAgent):
   the command safety gate, the chat-history cap, the pending-command slot,
   the plan codec and executor, and the request-processing entry point.

   Strings are Stdlib strings (byte sequences); the Python string methods
   used by the agent (strip, lower, startswith, slicing) are written out
   for the ASCII range. *)

From Stdlib Require Import String Ascii ZArith Lia.
From stdpp Require Import base list gmap strings pretty.

Open Scope string_scope.

(** stdpp blocks [simpl] on string append; the proofs below compute with it. *)
#[local] Arguments String.append : simpl nomatch.

(* ------------------------------------------------------------------ *)
(** * Python string helpers *)

Module PyStr.

(** [str.isspace] on the ASCII range: \t \n \v \f \r, the separators
    \x1c..\x1f, and the space. *)
Definition is_space (c : ascii) : bool :=
  let n := nat_of_ascii c in
  (Nat.leb 9 n && Nat.leb n 13) || (Nat.leb 28 n && Nat.leb n 32).

Fixpoint lstrip (s : string) : string :=
  match s with
  | EmptyString => EmptyString
  | String c r => if is_space c then lstrip r else s
  end.

Fixpoint rev_str (s : string) : string :=
  match s with
  | EmptyString => EmptyString
  | String c r => String.append (rev_str r) (String c EmptyString)
  end.

Definition rstrip (s : string) : string := rev_str (lstrip (rev_str s)).

(** [s.strip()] *)
Definition strip (s : string) : string := rstrip (lstrip s).

Definition lower_char (c : ascii) : ascii :=
  let n := nat_of_ascii c in
  if Nat.leb 65 n && Nat.leb n 90 then ascii_of_nat (n + 32)%nat else c.

(** [s.lower()] *)
Fixpoint lower (s : string) : string :=
  match s with
  | EmptyString => EmptyString
  | String c r => String (lower_char c) (lower r)
  end.

(** [s.startswith(p)] *)
Definition startswith (s p : string) : bool := String.prefix p s.

(** [s[n:]] for [n >= 0] *)
Fixpoint drop (n : nat) (s : string) : string :=
  match n, s with
  | O, _ => s
  | S _, EmptyString => EmptyString
  | S k, String _ r => drop k r
  end.

(** Python truthiness of a string: [not s] holds exactly for "". *)
Definition truthy (s : string) : bool :=
  match s with EmptyString => false | _ => true end.

(** [sep.join(xs)] *)
Fixpoint join (sep : string) (xs : list string) : string :=
  match xs with
  | [] => ""
  | [x] => x
  | x :: r => x +:+ sep +:+ join sep r
  end.

End PyStr.

(* ------------------------------------------------------------------ *)
(** * The command safety gate ([_is_command_allowed], lines 64-73, 265-272) *)

Definition allowed_command_prefixes : list string :=
  [ "dir"; "type"; "python -m http.server"; "python -c";
    "py -m http.server"; "pip show"; "pip list"; "ollama list" ].

(** The loop [for p in self.allowed_command_prefixes: if cmd.startswith(p.lower()): return True]. *)
Fixpoint prefix_loop (cmd : string) (ps : list string) : bool :=
  match ps with
  | [] => false
  | p :: rest =>
      if PyStr.startswith cmd (PyStr.lower p) then true else prefix_loop cmd rest
  end.

Definition _is_command_allowed (command : string) : bool :=
  let cmd := PyStr.lower (PyStr.strip command) in
  if negb (PyStr.truthy cmd) then false
  else prefix_loop cmd allowed_command_prefixes.

Example is_allowed_dir : _is_command_allowed "  DIR /s  " = true.
Proof. reflexivity. Qed.
Example is_allowed_rm : _is_command_allowed "rm -rf /" = false.
Proof. reflexivity. Qed.
Example utf8_literal : PyStr.truthy "❌" = true.
Proof. reflexivity. Qed.

(* ------------------------------------------------------------------ *)
(** * JSON values and [json.loads]

    The planner output is decoded with Python's [json.loads].  The decoder
    below follows the JSON grammar on the subset used here: objects,
    arrays, strings with the simple escapes, integers and the literals
    true/false/null.  Inputs outside it (fractions, exponents, \u escapes,
    NaN/Infinity) are rejected, as a decoding error. *)

#[local] Set Warnings "-register-all".

Inductive json :=
| JNull
| JBool (b : bool)
| JNum (z : Z)
| JStr (s : string)
| JArr (l : list json)
| JObj (kv : list (string * json)).

(** [d.get(k)]: a decoded dict keeps the last binding of a repeated key. *)
Definition obj_get (kv : list (string * json)) (k : string) : option json :=
  fold_left (fun acc '(k', v) => if String.eqb k k' then Some v else acc) kv None.

(** [d.get(k, default)] *)
Definition obj_get_default (kv : list (string * json)) (k : string) (d : json) : json :=
  match obj_get kv k with Some v => v | None => d end.

(** Python truthiness of a decoded value ([None] is [JNull]). *)
Definition jtruthy (v : json) : bool :=
  match v with
  | JNull => false
  | JBool b => b
  | JNum z => negb (Z.eqb z 0)
  | JStr s => PyStr.truthy s
  | JArr l => match l with [] => false | _ => true end
  | JObj kv => match kv with [] => false | _ => true end
  end.

Module Json.

Definition is_ws (c : ascii) : bool :=
  match nat_of_ascii c with 9 | 10 | 13 | 32 => true | _ => false end%nat.

Fixpoint skip_ws (s : string) : string :=
  match s with
  | String c r => if is_ws c then skip_ws r else s
  | EmptyString => EmptyString
  end.

Definition is_digit (c : ascii) : bool :=
  Nat.leb 48 (nat_of_ascii c) && Nat.leb (nat_of_ascii c) 57.

Definition digit_val (c : ascii) : Z := Z.of_nat (nat_of_ascii c - 48).

(** Body of a string literal, after the opening quote. *)
Fixpoint str_body (s : string) (acc : list ascii) : option (string * string) :=
  match s with
  | EmptyString => None
  | String c r =>
      if Ascii.eqb c "034"%char then Some (string_of_list_ascii (rev acc), r)
      else if Ascii.eqb c "\"%char then
        match r with
        | String e r' =>
            let put x := str_body r' (x :: acc) in
            match nat_of_ascii e with
            | 34 => put "034"%char
            | 92 => put "\"%char
            | 47 => put "/"%char
            | 98 => put (ascii_of_nat 8)
            | 102 => put (ascii_of_nat 12)
            | 110 => put (ascii_of_nat 10)
            | 114 => put (ascii_of_nat 13)
            | 116 => put (ascii_of_nat 9)
            | _ => None
            end%nat
        | EmptyString => None
        end
      else if Nat.ltb (nat_of_ascii c) 32 then None
      else str_body r (c :: acc)
  end.

Fixpoint digits (s : string) (acc : Z) : Z * string :=
  match s with
  | String c r => if is_digit c then digits r (acc * 10 + digit_val c)%Z else (acc, s)
  | EmptyString => (acc, s)
  end.

(** An integer: optional minus, then 0 or a nonzero digit and digits. *)
Definition number (s : string) : option (json * string) :=
  let '(neg, s1) := match s with
                    | String "-"%char r => (true, r)
                    | _ => (false, s)
                    end in
  let mag :=
    match s1 with
    | String "0"%char r => Some (0%Z, r)
    | String c r => if is_digit c then Some (digits r (digit_val c)) else None
    | EmptyString => None
    end in
  match mag with
  | None => None
  | Some (z, rest) =>
      match rest with
      | String c _ =>
          if Ascii.eqb c "."%char || Ascii.eqb c "e"%char || Ascii.eqb c "E"%char
          then None else Some (JNum (if neg then - z else z)%Z, rest)
      | EmptyString => Some (JNum (if neg then - z else z)%Z, rest)
      end
  end.

Fixpoint value (fuel : nat) (s : string) : option (json * string) :=
  match fuel with
  | O => None
  | S f =>
      match skip_ws s with
      | String "{"%char r =>
          match skip_ws r with
          | String "}"%char r' => Some (JObj [], r')
          | _ => members f r []
          end
      | String "["%char r =>
          match skip_ws r with
          | String "]"%char r' => Some (JArr [], r')
          | _ => elements f r []
          end
      | String "034"%char r =>
          match str_body r [] with
          | Some (x, r') => Some (JStr x, r')
          | None => None
          end
      | String "t"%char (String "r"%char (String "u"%char (String "e"%char r))) =>
          Some (JBool true, r)
      | String "f"%char (String "a"%char (String "l"%char (String "s"%char
          (String "e"%char r)))) => Some (JBool false, r)
      | String "n"%char (String "u"%char (String "l"%char (String "l"%char r))) =>
          Some (JNull, r)
      | s' => number s'
      end
  end
(** Members of an object, after its opening brace. *)
with members (fuel : nat) (s : string) (acc : list (string * json))
  : option (json * string) :=
  match fuel with
  | O => None
  | S f =>
      match skip_ws s with
      | String "034"%char r =>
          match str_body r [] with
          | Some (k, r1) =>
              match skip_ws r1 with
              | String ":"%char r2 =>
                  match value f r2 with
                  | Some (v, r3) =>
                      match skip_ws r3 with
                      | String ","%char r4 => members f r4 (acc ++ [(k, v)])
                      | String "}"%char r4 => Some (JObj (acc ++ [(k, v)]), r4)
                      | _ => None
                      end
                  | None => None
                  end
              | _ => None
              end
          | None => None
          end
      | _ => None
      end
  end
(** Elements of an array, after its opening bracket. *)
with elements (fuel : nat) (s : string) (acc : list json)
  : option (json * string) :=
  match fuel with
  | O => None
  | S f =>
      match value f s with
      | Some (v, r1) =>
          match skip_ws r1 with
          | String ","%char r2 => elements f r2 (acc ++ [v])
          | String "]"%char r2 => Some (JArr (acc ++ [v]), r2)
          | _ => None
          end
      | None => None
      end
  end.

End Json.

(** [json.loads(s)]: [None] stands for the raised decoding error.  Every
    nested call consumes input, so [2 * length s + 2] steps suffice. *)
Definition json_loads (s : string) : option json :=
  match Json.value (2 * String.length s + 2) s with
  | Some (v, rest) => if PyStr.truthy (Json.skip_ws rest) then None else Some v
  | None => None
  end.

(** Writing JSON text in Rocq: each apostrophe of [s] becomes a double quote. *)
Fixpoint with_dquotes (s : string) : string :=
  match s with
  | EmptyString => EmptyString
  | String c r => String (if Ascii.eqb c "'"%char then "034"%char else c) (with_dquotes r)
  end.

Example json_loads_plan :
  json_loads (with_dquotes "{'type': 'plan', 'actions': [{'tool': 'reply', 'text': 'hi'}, 12, -3, true, null]}")
  = Some (JObj [("type", JStr "plan");
                ("actions", JArr [JObj [("tool", JStr "reply"); ("text", JStr "hi")];
                                  JNum 12; JNum (-3); JBool true; JNull])]).
Proof. reflexivity. Qed.

(* ------------------------------------------------------------------ *)
(** * Session state *)

(** The fields of a [SimpleAgent] the request lifecycle reads or writes.
    [allowed_command_prefixes] and [available_models] are constants of
    [__init__]; [rag_enabled] is fixed at construction. *)
Record agent := mkAgent {
  chat_history : list (string * string);          (* (role, content) *)
  max_history : Z;
  memory : gmap string json;
  model_name : string;
  planner_model_name : string;
  pending_command : option string;                 (* None is Python's None *)
  pending_command_reason : option string;
  rag_enabled : bool
}.

Definition set_chat_history (h : list (string * string)) (st : agent) : agent :=
  mkAgent h st.(max_history) st.(memory) st.(model_name) st.(planner_model_name)
    st.(pending_command) st.(pending_command_reason) st.(rag_enabled).
Definition set_memory (m : gmap string json) (st : agent) : agent :=
  mkAgent st.(chat_history) st.(max_history) m st.(model_name) st.(planner_model_name)
    st.(pending_command) st.(pending_command_reason) st.(rag_enabled).
Definition set_model_name (n : string) (st : agent) : agent :=
  mkAgent st.(chat_history) st.(max_history) st.(memory) n st.(planner_model_name)
    st.(pending_command) st.(pending_command_reason) st.(rag_enabled).
Definition set_planner_model_name (n : string) (st : agent) : agent :=
  mkAgent st.(chat_history) st.(max_history) st.(memory) st.(model_name) n
    st.(pending_command) st.(pending_command_reason) st.(rag_enabled).
Definition set_pending (c r : option string) (st : agent) : agent :=
  mkAgent st.(chat_history) st.(max_history) st.(memory) st.(model_name)
    st.(planner_model_name) c r st.(rag_enabled).

(* ------------------------------------------------------------------ *)
(** * Exceptions and the state-and-exception monad *)

(** A raised Python exception: an instance of [Exception] (ValueError,
    TypeError, AttributeError, OSError, ...) or a [BaseException] outside
    [Exception] (KeyboardInterrupt, SystemExit, GeneratorExit). *)
Inductive exn_class := PyException | PyBaseOnly.

Record exn := mkExn { exn_cls : exn_class; exn_msg : string }.

Inductive res (A : Type) := Ok (a : A) | Raise (e : exn).
Arguments Ok {A} a.
Arguments Raise {A} e.

(** Attribute writes done before a raise persist, so the state is
    returned on both outcomes. *)
Definition M (A : Type) : Type := agent -> res A * agent.

Definition ret {A} (a : A) : M A := fun st => (Ok a, st).
Definition raise {A} (e : exn) : M A := fun st => (Raise e, st).
Definition bind {A B} (m : M A) (k : A -> M B) : M B :=
  fun st => match m st with
            | (Ok a, st') => k a st'
            | (Raise e, st') => (Raise e, st')
            end.
Definition get : M agent := fun st => (Ok st, st).
Definition modify (f : agent -> agent) : M unit := fun st => (Ok tt, f st).
(** A call whose outcome does not touch the session fields. *)
Definition lift {A} (r : res A) : M A := fun st => (r, st).

Notation "'let*' x ':=' m 'in' k" := (bind m (fun x => k))
  (at level 200, x name, m at level 100, k at level 200).

(** [try: m  except Exception as e: h(e)] *)
Definition try_except {A} (m : M A) (h : exn -> M A) : M A :=
  fun st => match m st with
            | (Raise e, st') =>
                match exn_cls e with
                | PyException => h e st'
                | PyBaseOnly => (Raise e, st')
                end
            | r => r
            end.

(* ------------------------------------------------------------------ *)
(** * Collaborators

    The code outside the modelled methods: the language-model clients,
    the RAG store, the subprocess and file helpers and the helpers of the
    remaining slash commands.  Each may return or raise. *)
Record env := mkEnv {
  (** [_init_llm]: builds both ChatOllama clients. *)
  init_llm : agent -> res unit;
  (** [_plan(user_input)]: the planner's reply, [.content.strip()]ed. *)
  plan : agent -> string -> res string;
  (** normal response path: [self.llm.invoke(messages).content] *)
  chat : agent -> string -> res string;
  (** [rag_add(text, meta)] *)
  rag_add : agent -> string -> res string;
  (** [run_command(command)] *)
  run_command : json -> res string;
  (** [create_file(path, content)] *)
  create_file : json -> json -> res string;
  (** [web_search(query)] *)
  web_search : json -> res string;
  (** the branches for /remember, /memories, /serve, /pwd, /cwd, /files,
      /open and /search, given the raw user input *)
  slash_helper : string -> M string
}.

(* ------------------------------------------------------------------ *)
(** * History and memory *)

(** [l[-n:]] *)
Definition py_tail {A} (n : Z) (l : list A) : list A :=
  let len := Z.of_nat (length l) in
  let start := (- n)%Z in
  let start := if (start <? 0)%Z then Z.max 0 (len + start) else Z.min start len in
  drop (Z.to_nat start) l.

Definition history_json (h : list (string * string)) : json :=
  JArr (map (fun '(r, c) => JObj [("role", JStr r); ("content", JStr c)]) h).

(** [save_memory]: the bare [except:] swallows every failure of the write,
    so it never raises; the dict assignment happens first. *)
Definition save_memory : M unit :=
  modify (fun st =>
    set_memory (<["chat_history" := history_json (py_tail 30 st.(chat_history))]> st.(memory)) st).

Definition remember (key : string) (value : json) : M unit :=
  let* _ := modify (fun st => set_memory (<[key := value]> st.(memory)) st) in
  save_memory.

Definition _append_history (role content : string) : M unit :=
  let* _ := modify (fun st => set_chat_history (st.(chat_history) ++ [(role, content)])%list st) in
  let* _ := modify (fun st => set_chat_history (py_tail st.(max_history) st.(chat_history)) st) in
  save_memory.

(* ------------------------------------------------------------------ *)
(** * Model selection ([set_model], [set_planner_model]) *)

Definition msg_usage_model : string := "❌ Usage: /model <model-name>".
Definition msg_usage_planner : string := "❌ Usage: /planner <model-name>".

Definition set_model (E : env) (name : string) : M string :=
  let name := PyStr.strip name in
  if negb (PyStr.truthy name) then ret msg_usage_model
  else
    let* _ := modify (set_model_name name) in
    let* _ := modify (fun st => set_memory (<["model_name" := JStr name]> st.(memory)) st) in
    let* _ := save_memory in
    let* st := get in
    let* _ := lift (E.(init_llm) st) in
    ret ("✅ Model set to: " +:+ name).

Definition set_planner_model (E : env) (name : string) : M string :=
  let name := PyStr.strip name in
  if negb (PyStr.truthy name) then ret msg_usage_planner
  else
    let* _ := modify (set_planner_model_name name) in
    let* _ := modify (fun st => set_memory (<["planner_model_name" := JStr name]> st.(memory)) st) in
    let* _ := save_memory in
    let* st := get in
    let* _ := lift (E.(init_llm) st) in
    ret ("✅ Planner model set to: " +:+ name).

(* ------------------------------------------------------------------ *)
(** * The pending-command slot *)

(** The newline character. *)
Definition nl : string := String (ascii_of_nat 10) EmptyString.

Definition msg_no_pending : string := "ℹ️ No pending command.".
Definition msg_canceled : string := "✅ Pending command canceled.".

Definition _queue_command (command reason : string) : M string :=
  let* _ := modify (set_pending (Some command) (Some reason)) in
  ret ("⚠️ Command requires confirmation." +:+ nl +:+ "Reason: " +:+ reason +:+ nl
       +:+ "Pending: " +:+ command +:+ nl +:+ nl
       +:+ "Use /confirm to run it or /cancel to discard.").

(** [not self._pending_command]: None and "" both count as absent. *)
Definition no_pending (st : agent) : bool :=
  match st.(pending_command) with
  | None => true
  | Some c => negb (PyStr.truthy c)
  end.

Definition _confirm_command (E : env) : M string :=
  let* st := get in
  if no_pending st then ret msg_no_pending
  else
    let cmd := match st.(pending_command) with Some c => c | None => EmptyString end in
    let* _ := modify (set_pending None None) in
    lift (E.(run_command) (JStr cmd)).

Definition _cancel_command : M string :=
  let* st := get in
  if no_pending st then ret msg_no_pending
  else
    let* _ := modify (set_pending None None) in
    ret msg_canceled.

(* ------------------------------------------------------------------ *)
(** * The plan executor ([_execute_plan], lines 475-504) *)

(** [str(v)] of a decoded value (quotes inside strings are not escaped). *)
Fixpoint py_repr (v : json) : string :=
  match v with
  | JNull => "None"
  | JBool true => "True"
  | JBool false => "False"
  | JNum z => pretty z
  | JStr s => "'" +:+ s +:+ "'"
  | JArr l => "[" +:+ PyStr.join ", " (map py_repr l) +:+ "]"
  | JObj kv => "{" +:+ PyStr.join ", " (map (fun '(k, x) => "'" +:+ k +:+ "': " +:+ py_repr x) kv) +:+ "}"
  end.

Definition py_str (v : json) : string :=
  match v with JStr s => s | _ => py_repr v end.

(** [x == "lit"] for [x = d.get(k)] ([None] when absent). *)
Definition is_str_lit (o : option json) (lit : string) : bool :=
  match o with Some (JStr t) => String.eqb t lit | _ => false end.

Definition type_error (m : string) : exn := mkExn PyException ("TypeError: " +:+ m).
Definition attribute_error (m : string) : exn := mkExn PyException ("AttributeError: " +:+ m).

(** One loop iteration: the outputs so far, extended. *)
Definition exec_action (E : env) (action : json) (outputs : list json) : M (list json) :=
  match action with
  | JObj a =>
      let tool := obj_get a "tool" in
      if is_str_lit tool "create_file" then
        let path := obj_get_default a "path" JNull in
        let content := obj_get_default a "content" (JStr "") in
        if negb (jtruthy path) then ret (outputs ++ [JStr "❌ create_file missing 'path'"])%list
        else let* o := lift (E.(create_file) path content) in ret (outputs ++ [JStr o])%list
      else if is_str_lit tool "run_command" then
        let cmd := obj_get_default a "command" JNull in
        if negb (jtruthy cmd) then ret (outputs ++ [JStr "❌ run_command missing 'command'"])%list
        else let* o := lift (E.(run_command) cmd) in ret (outputs ++ [JStr o])%list
      else if is_str_lit tool "web_search" then
        let query := obj_get_default a "query" JNull in
        if negb (jtruthy query) then ret (outputs ++ [JStr "❌ web_search missing 'query'"])%list
        else let* o := lift (E.(web_search) query) in ret (outputs ++ [JStr o])%list
      else if is_str_lit tool "reply" then
        let text := obj_get_default a "text" (JStr "") in
        if jtruthy text then ret (outputs ++ [text])%list else ret outputs
      else
        ret (outputs ++ [JStr ("❌ Unknown tool in plan: " +:+
                               py_str (match tool with Some t => t | None => JNull end))])%list
  | _ => raise (attribute_error "object has no attribute 'get'")
  end.

Fixpoint exec_actions (E : env) (l : list json) (outputs : list json) : M (list json) :=
  match l with
  | [] => ret outputs
  | a :: rest => let* outputs := exec_action E a outputs in exec_actions E rest outputs
  end.

(** [for action in plan.get("actions", [])]: a list is walked; a string or
    dict is walked by its characters or keys, which have no [.get]; other
    values are not iterable. *)
Definition iter_actions (E : env) (actions : json) : M (list json) :=
  match actions with
  | JArr l => exec_actions E l []
  | JStr t => if PyStr.truthy t then raise (attribute_error "'str' object has no attribute 'get'")
              else ret []
  | JObj [] => ret []
  | JObj _ => raise (attribute_error "'str' object has no attribute 'get'")
  | _ => raise (type_error "object is not iterable")
  end.

(** [[o for o in outputs if o is not None and o != ""]] *)
Definition keep_output (o : json) : bool :=
  match o with JNull => false | JStr EmptyString => false | _ => true end.

Fixpoint all_str (l : list json) : option (list string) :=
  match l with
  | [] => Some []
  | JStr x :: r => match all_str r with Some xs => Some (x :: xs) | None => None end
  | _ :: _ => None
  end.

(** ["\n".join(...)]: raises TypeError on an item that is not a str. *)
Definition join_outputs (outputs : list json) : M string :=
  match all_str (List.filter keep_output outputs) with
  | Some xs => ret (PyStr.join nl xs)
  | None => raise (type_error "sequence item: expected str instance")
  end.

Definition _execute_plan (E : env) (p : json) : M string :=
  match p with
  | JObj kv =>
      let* outputs := iter_actions E (obj_get_default kv "actions" (JArr [])) in
      join_outputs outputs
  | _ => raise (attribute_error "object has no attribute 'get'")
  end.

(* ------------------------------------------------------------------ *)
(** * The request entry point ([process_request], lines 506-680) *)

Definition available_models : list string :=
  [ "gpt-oss:120b-cloud"; "deepseek-v3.1:671b-cloud"; "qwen3-coder:480b-cloud" ].

Definition value_error (m : string) : exn := mkExn PyException ("ValueError: " +:+ m).

(** [self._append_history("assistant", out); return out] *)
Definition reply (out : string) : M string :=
  let* _ := _append_history "assistant" out in ret out.

(** The [try] block around the planner output (lines 640-650): [Some out]
    when the text decodes to a dict whose "type" is "plan". *)
Definition try_plan (E : env) (planned : string) : M (option string) :=
  match json_loads planned with
  | None => raise (value_error "Expecting value")
  | Some (JObj kv as p) =>
      if is_str_lit (obj_get kv "type") "plan" then
        let* out := _execute_plan E p in
        let* _ := remember "last_action" (JStr "executed_plan") in
        let* _ := _append_history "assistant" out in
        ret (Some out)
      else ret None
  | Some _ => raise (attribute_error "object has no attribute 'get'")
  end.

(** The normal response path (lines 652-677). *)
Definition normal_response (E : env) (user_input : string) : M string :=
  let* st := get in
  let* content := lift (E.(chat) st user_input) in
  let* _ := _append_history "assistant" content in
  let* st := get in
  let* _ := (if st.(rag_enabled) then
               let* _ := lift (E.(rag_add) st ("USER: " +:+ user_input +:+ nl
                                                +:+ "ASSISTANT: " +:+ content)) in
               ret tt
             else ret tt) in
  ret content.

(** Lines 638-677: a request that is no slash command goes to the planner;
    a plan is executed, anything else takes the normal response path. *)
Definition planner_path (E : env) (user_input : string) : M string :=
  let* st := get in
  let* planned := lift (E.(plan) st user_input) in
  let* r := (if PyStr.startswith planned "{" then
               try_except (try_plan E planned) (fun _ => ret None)
             else ret None) in
  match r with
  | Some out => ret out
  | None => normal_response E user_input
  end.

(** Lines 508-677, the body of the outer [try]. *)
Definition request_body (E : env) (user_input : string) : M string :=
  let* _ := _append_history "user" user_input in
  let* _ := remember "last_request" (JStr user_input) in
  let s := PyStr.strip user_input in
  let sl := PyStr.lower s in
  if String.eqb sl "/models" || String.eqb sl "/model list" then
    let* st := get in
    reply ("Available models:" +:+ nl
           +:+ PyStr.join nl (map (fun m => "- " +:+ m) available_models)
           +:+ nl +:+ nl +:+ "Current: " +:+ st.(model_name)
           +:+ nl +:+ nl +:+ "Use: /model <name>")
  else if PyStr.startswith sl "/model " then
    let arg := PyStr.strip (PyStr.drop 7 s) in
    if String.eqb (PyStr.lower arg) "show" || String.eqb (PyStr.lower arg) "current" then
      let* st := get in reply ("Current model: " +:+ st.(model_name))
    else let* out := set_model E arg in reply out
  else if String.eqb sl "/planner" || String.eqb sl "/planner show" then
    let* st := get in reply ("Planner model: " +:+ st.(planner_model_name))
  else if PyStr.startswith sl "/planner " then
    let arg := PyStr.strip (PyStr.drop 9 s) in
    let* out := set_planner_model E arg in reply out
  else if PyStr.startswith sl "/remember " || PyStr.startswith sl "/memories"
          || PyStr.startswith sl "/serve" || String.eqb sl "/pwd" || String.eqb sl "/cwd"
          || PyStr.startswith sl "/files" || PyStr.startswith sl "/open " then
    E.(slash_helper) user_input
  else if String.eqb sl "/confirm" then
    let* out := _confirm_command E in reply out
  else if String.eqb sl "/cancel" then
    let* out := _cancel_command in reply out
  else if PyStr.startswith sl "/run " then
    let cmd := PyStr.strip (PyStr.drop 5 s) in
    if negb (PyStr.truthy cmd) then reply "❌ Usage: /run <command>"
    else if _is_command_allowed cmd then
      let* out := lift (E.(run_command) (JStr cmd)) in reply out
    else
      let* out := _queue_command cmd "Not in safe allowlist" in reply out
  else if PyStr.startswith sl "/search " then
    E.(slash_helper) user_input
  else
    planner_path E user_input.

Definition msg_error_prefix : string := "❌ Error processing request: ".

Definition process_request (E : env) (user_input : string) : M string :=
  try_except (request_body E user_input)
    (fun e => ret (msg_error_prefix +:+ exn_msg e)).

(* ------------------------------------------------------------------ *)
(** * Concrete sessions and collaborators for evaluation *)

(** A fresh session with the defaults of [__init__] and no memory file. *)
Definition st0 : agent :=
  mkAgent [] 20 ∅ "gpt-oss:120b-cloud" "qwen3-coder:480b-cloud" None None true.

(** Collaborators that answer with fixed texts: the planner replies
    [planned], the chat model replies [answer]. *)
Definition env_fixed (planned answer : string) : env :=
  mkEnv (fun _ => Ok tt)
        (fun _ _ => Ok planned)
        (fun _ _ => Ok answer)
        (fun _ _ => Ok "✅ Saved to RAG memory.")
        (fun c => Ok ("📋 Command: " +:+ py_str c))
        (fun p _ => Ok ("✅ Successfully created: " +:+ py_str p))
        (fun q => Ok ("🔍 Web Search Results for: " +:+ py_str q))
        (fun _ => ret "ok").

(** The planner output of the spec's round-trip example. *)
Definition hello_plan_text : string :=
  with_dquotes "{'type':'plan','actions':[{'tool':'reply','text':'hello'}]}".

Example ex_plan_roundtrip :
  fst (process_request (env_fixed hello_plan_text "chat") "say hello" st0) = Ok "hello".
Proof. vm_compute. reflexivity. Qed.

Example ex_run_queues :
  (snd (process_request (env_fixed "x" "y") "/run rm -rf build" st0)).(pending_command)
  = Some "rm -rf build".
Proof. vm_compute. reflexivity. Qed.

(** The command of a "/run" request, and whether the request is a "/run"
    whose command is non-blank and refused by the allow check (lines 618-630). *)
Definition run_arg (u : string) : string := PyStr.strip (PyStr.drop 5 (PyStr.strip u)).

Definition is_refused_run (u : string) : bool :=
  PyStr.startswith (PyStr.lower (PyStr.strip u)) "/run " &&
  PyStr.truthy (run_arg u) && negb (_is_command_allowed (run_arg u)).

(** Whether the planner output takes the plan branch (lines 640-643). *)
Definition is_plan_text (planned : string) : bool :=
  PyStr.startswith planned "{" &&
  match json_loads planned with
  | Some (JObj kv) => is_str_lit (obj_get kv "type") "plan"
  | _ => false
  end.

(** A result that, if it raises, raises an [Exception]. *)
Definition no_base_raise {A} (r : res A) : Prop :=
  match r with Ok _ => True | Raise e => exn_cls e = PyException end.

(** A computation that never raises a non-[Exception] [BaseException]. *)
Definition no_base {A} (m : M A) : Prop := forall st, no_base_raise (fst (m st)).

(** Collaborators whose failures are all [Exception]s. *)
Record env_exception_only (E : env) : Prop := {
  eo_init : forall st, no_base_raise (E.(init_llm) st);
  eo_plan : forall st u, no_base_raise (E.(plan) st u);
  eo_chat : forall st u, no_base_raise (E.(chat) st u);
  eo_rag : forall st t, no_base_raise (E.(rag_add) st t);
  eo_run : forall c, no_base_raise (E.(run_command) c);
  eo_create : forall p c, no_base_raise (E.(create_file) p c);
  eo_web : forall q, no_base_raise (E.(web_search) q);
  eo_slash : forall u, no_base (E.(slash_helper) u)
}.

(** A session serving requests one after another. *)
Fixpoint run_requests (E : env) (us : list string) (st : agent) : list (res string) * agent :=
  match us with
  | [] => ([], st)
  | u :: rest =>
      let '(r, st') := process_request E u st in
      let '(rs, st'') := run_requests E rest st' in
      (r :: rs, st'')
  end.


(** An action entry the executor handles without raising: a JSON object
    whose reply text, if any, is a string or falsy. *)
Definition wf_action (a : json) : bool :=
  match a with
  | JObj kv =>
      if is_str_lit (obj_get kv "tool") "reply" then
        match obj_get_default kv "text" (JStr "") with
        | JStr _ => true
        | v => negb (jtruthy v)
        end
      else true
  | _ => false
  end.

(** [isinstance(action, dict)]: the entries [action.get] works on. *)
Definition is_obj (a : json) : bool :=
  match a with JObj _ => true | _ => false end.

(** The file, command and search helpers return (they catch [Exception]). *)
Definition env_tools_return (E : env) : Prop :=
  (forall p c, exists o, E.(create_file) p c = Ok o) /\
  (forall c, exists o, E.(run_command) c = Ok o) /\
  (forall q, exists o, E.(web_search) q = Ok o).

Definition msg_missing_path : string := "❌ create_file missing 'path'".

(** The plan of the spec's example with one malformed entry between the
    two actions: [create_file] without path, a bare string, a reply. *)
Definition bad_entry_plan_text : string :=
  with_dquotes "{'type':'plan','actions':[{'tool':'create_file'},'oops',{'tool':'reply','text':'hello'}]}".

(** A plan exercising every group: a command and a reply before the
    pathless [create_file], a search between it and the reply, a command
    after; and the same actions with the bare string 'oops' put after the
    first two. *)
Definition fs_before : list json :=
  [JObj [("tool", JStr "run_command"); ("command", JStr "dir")];
   JObj [("text", JStr "Starting."); ("tool", JStr "reply")]].
Definition fs_between : list json :=
  [JObj [("tool", JStr "web_search"); ("query", JStr "rocq")]].
Definition fs_after : list json :=
  [JObj [("tool", JStr "run_command"); ("command", JStr "ls")];
   JObj [("tool", JStr "reply"); ("text", JStr "")]].
Definition fs_cf : json := JObj [("tool", JStr "create_file"); ("content", JStr "x")].
Definition fs_rp : json := JObj [("tool", JStr "reply"); ("text", JStr "hello")].
Definition fs_plan : list (string * json) :=
  [("type", JStr "plan"); ("actions", JArr (fs_before ++ fs_cf :: fs_between ++ fs_rp :: fs_after)%list)].
Definition fs_bad_plan : list (string * json) :=
  [("type", JStr "plan"); ("actions", JArr (fs_before ++ JStr "oops" :: fs_between ++ fs_rp :: fs_after)%list)].

(** A [create_file] action whose path is missing or falsy. *)
Definition is_pathless_create_file (a : json) : bool :=
  match a with
  | JObj kv => is_str_lit (obj_get kv "tool") "create_file" &&
               negb (jtruthy (obj_get_default kv "path" JNull))
  | _ => false
  end.

(** A [reply] action whose text is the string [t]. *)
Definition is_reply_text (a : json) (t : string) : bool :=
  match a with
  | JObj kv => is_str_lit (obj_get kv "tool") "reply" &&
               match obj_get_default kv "text" (JStr "") with
               | JStr t' => String.eqb t' t
               | _ => false
               end
  | _ => false
  end.

(* ------------------------------------------------------------------ *)
(** * Code-block extraction ([extract_code_content], lines 682-697) *)

(** [s.find(sub, start)]: the least index [>= start] at which [sub]
    occurs, or -1; a start past the end finds nothing. *)
Fixpoint find_aux (sub s : string) (i : nat) : option nat :=
  if String.prefix sub s then Some i
  else match s with
       | EmptyString => None
       | String _ r => find_aux sub r (S i)
       end.

Definition py_find (s sub : string) (start : nat) : Z :=
  if Nat.ltb (String.length s) start then (-1)%Z
  else match find_aux sub (PyStr.drop start s) start with
       | Some i => Z.of_nat i
       | None => (-1)%Z
       end.

(** [s[i:j]] for non-negative [i] and [j]. *)
Definition py_slice (s : string) (i j : Z) : string :=
  String.substring (Z.to_nat i) (Z.to_nat j - Z.to_nat i) s.

Definition fence : string := "```".

(** Searching and slicing a [str] raise nothing, so the [try] is inert. *)
Definition extract_code_content (response_text language : string) : string :=
  let start_marker := fence +:+ language in
  let start_idx := py_find response_text start_marker 0%nat in
  if (start_idx =? -1)%Z then ""
  else
    let start_idx := py_find response_text nl (Z.to_nat start_idx) in
    if (start_idx =? -1)%Z then ""
    else
      let start_idx := (start_idx + 1)%Z in
      let end_idx := py_find response_text fence (Z.to_nat start_idx) in
      if (end_idx =? -1)%Z then ""
      else PyStr.strip (py_slice response_text start_idx end_idx).

Fixpoint has_char (c : ascii) (s : string) : bool :=
  match s with
  | EmptyString => false
  | String d r => Ascii.eqb c d || has_char c r
  end.

Definition backquote : ascii := "`"%char.
Definition newline : ascii := ascii_of_nat 10.

(** Whether every character is whitespace ([str.isspace] or empty). *)
Fixpoint all_space (s : string) : bool :=
  match s with
  | EmptyString => true
  | String c r => PyStr.is_space c && all_space r
  end.

(** A history kept within a positive cap. *)
Definition history_capped (st : agent) : Prop :=
  (0 < st.(max_history))%Z /\ (length st.(chat_history) <= Z.to_nat st.(max_history))%nat.

(** A computation that keeps the property [P] of the session, whether it
    returns or raises. *)
Definition preserves {A} (P : agent -> Prop) (m : M A) : Prop :=
  forall st, P st -> P (snd (m st)).

(* ------------------------------------------------------------------ *)
(** * The static file server ([_serve_start] and [_serve_stop], lines
      400-448, and the "/serve" branch of [process_request], lines 562-588) *)

(** [s.strip(c)] for a single character [c]. *)
Fixpoint lstrip_char (c : ascii) (s : string) : string :=
  match s with
  | EmptyString => EmptyString
  | String d r => if Ascii.eqb d c then lstrip_char c r else s
  end.

Definition strip_char (c : ascii) (s : string) : string :=
  PyStr.rev_str (lstrip_char c (PyStr.rev_str (lstrip_char c s))).

(** [s.split()]: the maximal runs of non-whitespace characters. *)
Fixpoint split_go (s : string) (word : string) : list string :=
  match s with
  | EmptyString => if PyStr.truthy word then [word] else []
  | String c r =>
      if PyStr.is_space c then
        (if PyStr.truthy word then word :: split_go r "" else split_go r "")
      else split_go r (word +:+ String c "")
  end.

Definition py_split (s : string) : list string := split_go s "".

(** [int(s)] of a [str] in base 10 on the ASCII range: an optional sign,
    then digits with single underscores between them; [None] is the
    raised [ValueError]. *)
Fixpoint int_digits (s : string) (acc : Z) (after_digit : bool) : option Z :=
  match s with
  | EmptyString => if after_digit then Some acc else None
  | String c r =>
      if Json.is_digit c then int_digits r (10 * acc + Json.digit_val c)%Z true
      else if Ascii.eqb c "_"%char && after_digit then int_digits r acc false
      else None
  end.

Definition py_int_str (s : string) : option Z :=
  match PyStr.strip s with
  | EmptyString => None
  | String c r =>
      if Ascii.eqb c "-"%char then option_map Z.opp (int_digits r 0%Z false)
      else if Ascii.eqb c "+"%char then int_digits r 0%Z false
      else int_digits (String c r) 0%Z false
  end.

(** [int(v)] of a value read from the memory file. *)
Definition py_int_json (v : json) : res Z :=
  match v with
  | JNum z => Ok z
  | JBool b => Ok (if b then 1%Z else 0%Z)
  | JStr s =>
      match py_int_str s with
      | Some z => Ok z
      | None => Raise (value_error "invalid literal for int() with base 10")
      end
  | _ => Raise (type_error "int() argument must be a string, a bytes-like object or a real number")
  end.

(** The operating system as the server code sees it; a process is known
    by its handle. *)
Record os_env := mkOs {
  (** [os.path.isdir(folder)] *)
  isdir : string -> bool;
  (** [subprocess.Popen([python, "-m", "http.server", str(port)], cwd=folder)] *)
  popen : string -> Z -> res Z;
  (** [proc.poll() is None] *)
  poll_running : Z -> bool;
  (** [proc.terminate(); proc.wait(timeout=5)] *)
  terminate_wait : Z -> res unit;
  (** [proc.kill()] *)
  kill : Z -> res unit
}.

(** The session together with [self._server_process]. *)
Record serve_state := mkServe {
  sv_agent : agent;
  server_process : option Z
}.

Definition SM (A : Type) : Type := serve_state -> res A * serve_state.

Definition sret {A} (a : A) : SM A := fun s => (Ok a, s).
Definition sraise {A} (e : exn) : SM A := fun s => (Raise e, s).
Definition sbind {A B} (m : SM A) (k : A -> SM B) : SM B :=
  fun s => match m s with
           | (Ok a, s') => k a s'
           | (Raise e, s') => (Raise e, s')
           end.
Definition sget : SM serve_state := fun s => (Ok s, s).
Definition set_server (p : option Z) : SM unit :=
  fun s => (Ok tt, mkServe s.(sv_agent) p).
(** A method of the session run inside the server code. *)
Definition on_agent {A} (m : M A) : SM A :=
  fun s => let '(r, a) := m s.(sv_agent) in (r, mkServe a s.(server_process)).

Notation "'let+' x ':=' m 'in' k" := (sbind m (fun x => k))
  (at level 200, x name, m at level 100, k at level 200).

Definition dquote : ascii := "034"%char.
Definition squote : ascii := "'"%char.

(** [folder.strip().strip(dquote).strip(squote)] on a [str]: blanks, then
    double quotes, then single quotes removed from both ends *)
Definition strip_path (folder : string) : string :=
  strip_char squote (strip_char dquote (PyStr.strip folder)).

Definition msg_serve_usage : string := "❌ Usage: /serve <folder> [port]".
Definition msg_serve_running : string := "❌ A server is already running. Use /serve stop first.".
Definition msg_no_server : string := "ℹ️ No server is currently running.".
Definition msg_server_stopped : string := "✅ Server stopped.".
Definition msg_port_nan : string := "❌ Port must be a number. Example: /serve restaurant-site 8000".

Definition serving_msg (folder : string) (port : Z) : string :=
  "✅ Serving '" +:+ folder +:+ "' on http://localhost:" +:+ pretty port +:+ nl
  +:+ "Stop with: /serve stop".

Definition _serve_start (O : os_env) (folder : json) (port : Z) : SM string :=
  match (if jtruthy folder then folder else JStr "") with
  | JStr f0 =>
      let folder := strip_path f0 in
      if negb (PyStr.truthy folder) then sret msg_serve_usage
      else if negb (O.(isdir) folder) then sret ("❌ Folder not found: " +:+ folder)
      else
        let+ s := sget in
        if match s.(server_process) with Some p => O.(poll_running) p | None => false end
        then sret msg_serve_running
        else
          match O.(popen) folder port with
          | Raise e =>
              match exn_cls e with
              | PyException =>
                  let+ _ := set_server None in
                  sret ("❌ Failed to start server: " +:+ exn_msg e)
              | PyBaseOnly => sraise e
              end
          | Ok p =>
              let+ _ := set_server (Some p) in
              let+ _ := on_agent (modify (fun st =>
                          set_memory (<["last_served_folder" := JStr folder]> st.(memory)) st)) in
              let+ _ := on_agent (modify (fun st =>
                          set_memory (<["last_served_port" := JNum port]> st.(memory)) st)) in
              let+ _ := on_agent save_memory in
              sret (serving_msg folder port)
          end
  | _ => sraise (attribute_error "object has no attribute 'strip'")
  end.

(** [try: terminate; wait  except Exception: (try: kill  except Exception:
    pass)  finally: self._server_process = None] *)
Definition _serve_stop (O : os_env) : SM string :=
  let+ s := sget in
  match s.(server_process) with
  | Some p =>
      if O.(poll_running) p then
        let r := match O.(terminate_wait) p with
                 | Ok _ => Ok tt
                 | Raise e =>
                     match exn_cls e with
                     | PyException =>
                         match O.(kill) p with
                         | Ok _ => Ok tt
                         | Raise e' =>
                             match exn_cls e' with
                             | PyException => Ok tt
                             | PyBaseOnly => Raise e'
                             end
                         end
                     | PyBaseOnly => Raise e
                     end
                 end in
        let+ _ := set_server None in
        let+ _ := sbind (fun s => (r, s)) (fun _ => sret tt) in
        sret msg_server_stopped
      else let+ _ := set_server None in sret msg_no_server
  | None => let+ _ := set_server None in sret msg_no_server
  end.

(** The "/serve" branch, entered when the stripped, lowercased input starts
    with "/serve". *)
Definition serve_branch (O : os_env) (user_input : string) : SM string :=
  let parts := py_split (PyStr.strip user_input) in
  match parts with
  | [_] =>
      let+ s := sget in
      let mem := s.(sv_agent).(memory) in
      let folder := match mem !! "last_served_folder" with
                    | Some v => if jtruthy v then v else JStr "restaurant-site"
                    | None => JStr "restaurant-site"
                    end in
      let+ port := (fun s => (py_int_json (match mem !! "last_served_port" with
                                          | Some v => if jtruthy v then v else JNum 8000
                                          | None => JNum 8000
                                          end), s)) in
      let+ out := _serve_start O folder port in
      on_agent (reply out)
  | _ :: arg1 :: rest =>
      if String.eqb (PyStr.lower arg1) "stop" then
        let+ out := _serve_stop O in on_agent (reply out)
      else
        match rest with
        | [] => let+ out := _serve_start O (JStr arg1) 8000 in on_agent (reply out)
        | a2 :: _ =>
            match py_int_str a2 with
            | None => on_agent (reply msg_port_nan)
            | Some port => let+ out := _serve_start O (JStr arg1) port in on_agent (reply out)
            end
        end
  | [] => sraise (mkExn PyException "IndexError: list index out of range")
  end.

(** A machine with one folder "site" where every launch succeeds, and the
    same machine where launching fails. *)
Definition os_demo : os_env :=
  mkOs (fun d => String.eqb d "site") (fun _ _ => Ok 7%Z) (fun _ => true)
       (fun _ => Ok tt) (fun _ => Ok tt).
Definition os_down : os_env :=
  mkOs os_demo.(isdir) (fun _ _ => Raise (mkExn PyException "OSError: launch failed"))
       os_demo.(poll_running) os_demo.(terminate_wait) os_demo.(kill).

(** The command of a [run_command] action: [action.get("command")] when
    [action.get("tool") == "run_command"]. *)
Definition run_command_arg (a : json) : option json :=
  match a with
  | JObj kv => if is_str_lit (obj_get kv "tool") "run_command"
               then Some (obj_get_default kv "command" JNull) else None
  | _ => None
  end.

(* ------------------------------------------------------------------ *)
(** * Folder listing ([_list_files], lines 299-310) *)

(** The file system as [_list_files] sees it; a child of a folder is its
    name and whether it is a directory. *)
Record fs_env := mkFs {
  (** [Path(folder).exists()] *)
  fs_exists : string -> bool;
  (** [Path(folder).is_dir()] *)
  fs_is_dir : string -> bool;
  (** [[(c.name, c.is_dir()) for c in Path(folder).iterdir()]] *)
  fs_iterdir : string -> res (list (string * bool));
  (** [str(Path(folder).resolve())] *)
  fs_resolve : string -> string
}.

(** [a < b] on [str]: code points compare like the bytes of their UTF-8
    encoding, so the order is the lexicographic order of the bytes. *)
Fixpoint str_ltb (a b : string) : bool :=
  match a, b with
  | _, EmptyString => false
  | EmptyString, String _ _ => true
  | String x a', String y b' =>
      if Nat.ltb (nat_of_ascii x) (nat_of_ascii y) then true
      else if Ascii.eqb x y then str_ltb a' b' else false
  end.

(** [<] on the sort key [(not c.is_dir(), c.name.lower())]. *)
Definition key_lt (c1 c2 : string * bool) : bool :=
  (c1.2 && negb c2.2) || (Bool.eqb c1.2 c2.2 && str_ltb (PyStr.lower c1.1) (PyStr.lower c2.1)).

(** [sorted(children, key=...)] is stable; a stable insertion sort has the
    same (unique) result. *)
Fixpoint insert_key (x : string * bool) (l : list (string * bool)) : list (string * bool) :=
  match l with
  | [] => [x]
  | y :: ys => if key_lt y x then y :: insert_key x ys else x :: y :: ys
  end.

Definition sort_children (l : list (string * bool)) : list (string * bool) :=
  fold_right insert_key [] l.

Definition list_item (c : string * bool) : string :=
  "- [" +:+ (if c.2 then "dir" else "file") +:+ "] " +:+ c.1.

(** [(folder or ".").strip().strip(dquote).strip(squote)] *)
Definition files_folder (folder : option string) : string :=
  strip_path (match folder with
              | Some f => if PyStr.truthy f then f else "."
              | None => "."
              end).

Definition _list_files (F : fs_env) (folder : option string) : res string :=
  let folder := files_folder folder in
  if negb (F.(fs_exists) folder) || negb (F.(fs_is_dir) folder) then
    Ok ("❌ Folder not found: " +:+ folder)
  else
    match F.(fs_iterdir) folder with
    | Raise e => Raise e
    | Ok children =>
        let items := map list_item (sort_children children) in
        match items with
        | [] => Ok ("(empty) " +:+ F.(fs_resolve) folder)
        | _ => Ok (F.(fs_resolve) folder +:+ nl +:+ PyStr.join nl items)
        end
    end.

(** Each element is at most its successor. *)
Fixpoint sorted_by {A} (le : A -> A -> bool) (l : list A) : bool :=
  match l with
  | x :: (y :: _) as r => le x y && sorted_by le r
  | _ => true
  end.

(** Name order after [.lower()]. *)
Definition name_le (c1 c2 : string * bool) : bool :=
  negb (str_ltb (PyStr.lower c2.1) (PyStr.lower c1.1)).

(** A folder with two subfolders and two files, listed in creation order. *)
Definition fs_demo : fs_env :=
  mkFs (fun _ => true) (fun _ => true)
       (fun _ => Ok [("README.md", false); ("src", true); ("app.py", false); ("Assets", true)])
       (fun f => "/home/user/" +:+ f).

(* ------------------------------------------------------------------ *)
(** * Retrieval memory ([_ollama_embed] and [rag_query], lines 327-398,
      and the "/memories" branch of [process_request], lines 546-560) *)

(** The embedding service and the vector store, with the settings read in
    [__init__]. *)
Record rag_env := mkRag {
  (** [self._chroma_collection] was created *)
  rag_collection : bool;
  (** [self.rag_embed_model] *)
  rag_embed_model : string;
  (** [self.rag_k], already passed through [int()] *)
  rag_k : Z;
  (** [requests.post(f"{url}/api/embeddings", json={"model": m, "prompt": t})]
      followed by [raise_for_status()] and [.json()] *)
  ollama_embeddings : string -> string -> res json;
  (** [collection.query(query_embeddings=[emb], n_results=n)["documents"]]:
      [None] or a list of lists of documents, as chromadb's [QueryResult] types it *)
  chroma_query : json -> Z -> res (option (list (list string)))
}.

Definition _ollama_embed (R : rag_env) (text : string) : res json :=
  let text := PyStr.strip text in
  if negb (PyStr.truthy text) then Ok (JArr [])
  else
    match R.(ollama_embeddings) R.(rag_embed_model) text with
    | Ok data =>
        (* [data.get("embedding") or []]; a non-dict has no [.get] and the
           AttributeError is caught *)
        Ok (match data with
            | JObj kv => match obj_get kv "embedding" with
                         | Some v => if jtruthy v then v else JArr []
                         | None => JArr []
                         end
            | _ => JArr []
            end)
    | Raise e => match exn_cls e with PyException => Ok (JArr []) | PyBaseOnly => Raise e end
    end.

Definition rag_query (R : rag_env) (query : string) (k : option Z) : M (list string) :=
  let* st := get in
  if negb st.(rag_enabled) then ret []
  else if negb R.(rag_collection) then ret []
  else
    let query := PyStr.strip query in
    if negb (PyStr.truthy query) then ret []
    else
      let* emb := lift (_ollama_embed R query) in
      if negb (jtruthy emb) then ret []
      else
        let n := match k with Some k' => if Z.eqb k' 0 then R.(rag_k) else k' | None => R.(rag_k) end in
        match R.(chroma_query) emb n with
        | Ok docs =>
            (* [(res.get("documents") or [[]])[0]] *)
            let docs := match docs with Some (d :: _) => d | _ => [] end in
            ret (List.filter PyStr.truthy docs)
        | Raise e => match exn_cls e with PyException => ret [] | PyBaseOnly => raise e end
        end.

Definition msg_memories_usage : string := "❌ Usage: /memories <query>".
Definition msg_no_memories : string := "ℹ️ No relevant memories found.".

(** The "/memories" branch, entered when the stripped, lowercased input
    starts with "/memories". *)
Definition memories_branch (R : rag_env) (user_input : string) : M string :=
  let q := PyStr.strip (PyStr.drop 9 (PyStr.strip user_input)) in
  if negb (PyStr.truthy q) then reply msg_memories_usage
  else
    let* items := rag_query R q (Some 6%Z) in
    match items with
    | [] => reply msg_no_memories
    | _ => reply ("Retrieved memories:" +:+ nl +:+ PyStr.join nl (map (fun m => "- " +:+ m) items))
    end.

(** A store that returns its documents in a fixed order, some of them empty. *)
Definition rag_demo : rag_env :=
  mkRag true "nomic-embed-text:latest" 4
        (fun _ _ => Ok (JObj [("embedding", JArr [JNum 1; JNum 2])]))
        (fun _ _ => Ok (Some [["likes dark mode"; ""; "uses python 3.12"]])).

(* ------------------------------------------------------------------ *)
(** * The console loop ([get_input] and [chat_loop], lines 744-792) *)

(** What [input(prompt)] does at one read: a line, or the end of input
    (EOFError), or Ctrl-C (KeyboardInterrupt). *)
Inductive input_event := Line (s : string) | Eof | Interrupt.

(** [get_input]: both exceptions give "". *)
Definition get_input (ev : input_event) : string :=
  match ev with Line s => s | Eof | Interrupt => "" end.

(** What the loop writes: the fixed texts of [print_header] and
    [print_help], or one [print]. *)
Inductive console := Header | HelpText | Print (s : string).

Definition goodbye : string := nl +:+ "👋 Goodbye!".
Definition dashes : string := "----------------------------------------".

(** The class of a [BaseException] or [Exception] as named in its message. *)
Definition exn_named (name : string) (e : exn) : bool := String.prefix name (exn_msg e).

(** [chat_loop] for at most [fuel] iterations, reading the events in turn;
    once they are used up the input stays at its end. The boolean tells
    whether the loop left through [break]. *)
Fixpoint chat_iter (E : env) (fuel : nat) (evs : list input_event) (out : list console)
    : M (bool * list console) :=
  match fuel with
  | O => ret (false, out)
  | S n =>
      let ev := match evs with [] => Eof | e :: _ => e end in
      let rest := tl evs in
      let user_input := get_input ev in
      if negb (PyStr.truthy user_input) then chat_iter E n rest out
      else
        let cmd_lower := PyStr.strip (PyStr.lower user_input) in
        if String.eqb cmd_lower "exit" || String.eqb cmd_lower "quit" then
          ret (true, out ++ [Print goodbye])%list
        else if String.eqb cmd_lower "help" then chat_iter E n rest (out ++ [HelpText])%list
        else
          let out := (out ++ [Print "🔄 Processing..."])%list in
          fun st =>
            match process_request E user_input st with
            | (Ok response, st') =>
                chat_iter E n rest
                  (out ++ [Print (nl +:+ "🤖 Agent Response:"); Print dashes;
                           Print response; Print dashes])%list st'
            | (Raise e, st') =>
                match exn_cls e with
                | PyBaseOnly =>
                    if exn_named "KeyboardInterrupt" e then (Ok (true, out ++ [Print goodbye])%list, st')
                    else (Raise e, st')
                | PyException =>
                    if exn_named "EOFError" e then (Ok (true, out ++ [Print goodbye])%list, st')
                    else chat_iter E n rest (out ++ [Print (nl +:+ "❌ Error: " +:+ exn_msg e)])%list st'
                end
            end
  end.

Definition chat_loop (E : env) (fuel : nat) (evs : list input_event) : M (bool * list console) :=
  chat_iter E fuel evs [Header].

(** A line that ends the loop. *)
Definition exit_line (ev : input_event) : bool :=
  let c := PyStr.strip (PyStr.lower (get_input ev)) in
  String.eqb c "exit" || String.eqb c "quit".

(* ================================================================== *)
(** * Proofs *)

Lemma prefix_loop_spec (cmd : string) (ps : list string) :
  prefix_loop cmd ps = true <->
  exists p, In p ps /\ PyStr.startswith cmd (PyStr.lower p) = true.
Proof.
  induction ps as [|q ps IH]; simpl.
  - split; [discriminate | intros (p & [] & _)].
  - destruct (PyStr.startswith cmd (PyStr.lower q)) eqn:Hq.
    + split; [intros _; exists q; auto | auto].
    + rewrite IH. split.
      * intros (p & Hin & Hp). exists p; auto.
      * intros (p & [<- | Hin] & Hp); [congruence | eauto].
Qed.

Lemma allowed_prefixes_nonempty (p : string) :
  In p allowed_command_prefixes -> PyStr.startswith "" (PyStr.lower p) = false.
Proof.
  unfold allowed_command_prefixes; simpl.
  intros H; repeat destruct H as [<- | H]; try reflexivity; destruct H.
Qed.

(** C1: the allow check holds exactly when the lowercased, stripped
    command starts with (the lowercase of) one of the allow-list
    prefixes, whatever follows the prefix; a blank command is refused. *)
Theorem is_command_allowed_iff_prefix :
  (forall c : string,
     _is_command_allowed c = true <->
     exists p, In p allowed_command_prefixes /\
               PyStr.startswith (PyStr.lower (PyStr.strip c)) (PyStr.lower p) = true) /\
  (forall c : string, PyStr.strip c = "" -> _is_command_allowed c = false).
Proof.
  split.
  - intros c. unfold _is_command_allowed.
    destruct (PyStr.lower (PyStr.strip c)) as [|a s] eqn:Hcmd;
      cbn [negb PyStr.truthy].
    + split; [discriminate|].
      intros (p & Hin & Hp).
      pose proof (allowed_prefixes_nonempty p Hin); congruence.
    + apply prefix_loop_spec.
  - intros c Hc. unfold _is_command_allowed. rewrite Hc. reflexivity.
Qed.

(** ** The history cap *)

Lemma py_tail_zero {A} (l : list A) : py_tail 0 l = l.
Proof.
  unfold py_tail. simpl.
  replace (Z.min (- 0) (Z.of_nat (length l))) with 0%Z by lia. reflexivity.
Qed.

Lemma py_tail_pos {A} (n : Z) (l : list A) :
  (0 < n)%Z -> py_tail n l = drop (length l - Z.to_nat n) l.
Proof.
  intros Hn. unfold py_tail.
  destruct (Z.ltb_spec (- n) 0) as [_|]; [|lia].
  f_equal. lia.
Qed.

(** For a positive cap, one append leaves at most [max_history] entries,
    the newest ones, in order. *)
Lemma append_history_capped_pos (st : agent) (role content : string) :
  (0 < st.(max_history))%Z ->
  let h := (snd (_append_history role content st)).(chat_history) in
  (length h <= Z.to_nat st.(max_history))%nat /\
  h = drop (S (length st.(chat_history)) - Z.to_nat st.(max_history))
           (st.(chat_history) ++ [(role, content)])%list.
Proof.
  intros Hn. destruct st as [h0 n m mn pm pc pr re]; simpl in *.
  rewrite py_tail_pos by exact Hn.
  rewrite length_app; simpl. split; [|f_equal; lia].
  rewrite length_drop, length_app. simpl. lia.
Qed.

(** C2 (code_bug): with [max_history = 0] the slice [chat_history[-0:]]
    is the whole list, so an append grows the history past the cap. *)
Theorem append_history_no_cap_at_zero
  (h : list (string * string)) (m : gmap string json) (mn pm : string)
  (pc pr : option string) (re : bool) (role content : string) :
  let st := mkAgent h 0 m mn pm pc pr re in
  (snd (_append_history role content st)).(chat_history) = (h ++ [(role, content)])%list /\
  (length (snd (_append_history role content st)).(chat_history) > 0)%nat.
Proof.
  simpl. rewrite py_tail_zero. split; [reflexivity|].
  rewrite length_app; simpl; lia.
Qed.

(** ** The pending-command slot *)

(** C3: the slot holds one command; queuing [B] after [A] leaves [B] and
    its reason, both through [_queue_command] and through two "/run"
    requests whose commands are refused by the allow check. *)
Lemma queue_command_overwrites (st : agent) (a ra b rb : string) :
  let st2 := snd (_queue_command b rb (snd (_queue_command a ra st))) in
  st2.(pending_command) = Some b /\ st2.(pending_command_reason) = Some rb.
Proof. split; reflexivity. Qed.

(** C4: without a pending command, confirm and cancel return the
    informational message and leave the whole session unchanged. *)
Theorem confirm_cancel_no_pending_noop (E : env) (st : agent) :
  no_pending st = true ->
  _confirm_command E st = (Ok msg_no_pending, st) /\
  _cancel_command st = (Ok msg_no_pending, st).
Proof.
  intros H. unfold _confirm_command, _cancel_command, bind, get, ret.
  rewrite H. split; reflexivity.
Qed.

Lemma confirm_cancel_no_pending_noop_witness :
  no_pending st0 = true /\
  _confirm_command (env_fixed "p" "a") st0 = (Ok msg_no_pending, st0) /\
  _cancel_command st0 = (Ok msg_no_pending, st0).
Proof.
  split; [reflexivity|]. apply confirm_cancel_no_pending_noop. reflexivity.
Defined.

(** C9: confirming a pending command clears the slot and its reason
    before running it, so whatever the run returns or raises, nothing is
    pending afterwards and a second confirm reports that. *)
Theorem confirm_clears_pending (E : env) (st : agent) (c : string) :
  st.(pending_command) = Some c -> PyStr.truthy c = true ->
  let '(r, st') := _confirm_command E st in
  r = E.(run_command) (JStr c) /\
  st'.(pending_command) = None /\ st'.(pending_command_reason) = None /\
  _confirm_command E st' = (Ok msg_no_pending, st').
Proof.
  intros Hc Ht. unfold _confirm_command at 1, bind, get, ret, modify, lift.
  unfold no_pending. rewrite Hc, Ht. simpl.
  split; [reflexivity|]. split; [reflexivity|]. split; [reflexivity|].
  reflexivity.
Qed.

Lemma confirm_clears_pending_witness :
  let st := set_pending (Some "rm -rf build") (Some "Not in safe allowlist") st0 in
  let E := env_fixed "p" "a" in
  st.(pending_command) = Some "rm -rf build" /\ PyStr.truthy "rm -rf build" = true /\
  (let '(r, st') := _confirm_command E st in
   r = E.(run_command) (JStr "rm -rf build") /\
   st'.(pending_command) = None /\ st'.(pending_command_reason) = None /\
   _confirm_command E st' = (Ok msg_no_pending, st')).
Proof.
  cbv zeta. split; [reflexivity|]. split; [reflexivity|].
  apply confirm_clears_pending; reflexivity.
Defined.

(** ** Model selection *)

(** C10: a blank model name is refused with the usage message and the
    session (models, memory, everything else) is left as it was. *)
Theorem set_model_blank_atomic (E : env) (st : agent) (name : string) :
  PyStr.strip name = EmptyString ->
  set_model E name st = (Ok msg_usage_model, st) /\
  set_planner_model E name st = (Ok msg_usage_planner, st).
Proof.
  intros H. unfold set_model, set_planner_model. rewrite H. split; reflexivity.
Qed.

Lemma set_model_blank_atomic_witness :
  PyStr.strip "  	 " = EmptyString /\
  set_model (env_fixed "p" "a") "  	 " st0 = (Ok msg_usage_model, st0) /\
  set_planner_model (env_fixed "p" "a") "  	 " st0 = (Ok msg_usage_planner, st0).
Proof.
  split; [reflexivity|]. apply set_model_blank_atomic. reflexivity.
Defined.

Lemma prefix_empty (s : string) : String.prefix EmptyString s = true.
Proof. destruct s; reflexivity. Qed.

Lemma prefix_cons (a b : ascii) (s1 s2 : string) :
  String.prefix (String a s1) (String b s2) =
  if ascii_dec a b then String.prefix s1 s2 else false.
Proof. reflexivity. Qed.

Lemma startswith_app (s p : string) :
  PyStr.startswith s p = true -> exists rest, s = p +:+ rest.
Proof.
  unfold PyStr.startswith. revert s.
  induction p as [|c p IH]; intros s H.
  - exists s. reflexivity.
  - destruct s as [|d s]; [discriminate|]. simpl in H.
    destruct (ascii_dec c d) as [<-|]; [|discriminate].
    destruct (IH s H) as [rest ->]. exists rest. reflexivity.
Qed.

(** One "/run" request whose command the allow check refuses puts that
    command in the slot, with the reason "Not in safe allowlist". *)
Lemma run_request_queues (E : env) (st : agent) (u : string) :
  PyStr.startswith (PyStr.lower (PyStr.strip u)) "/run " = true ->
  PyStr.truthy (PyStr.strip (PyStr.drop 5 (PyStr.strip u))) = true ->
  _is_command_allowed (PyStr.strip (PyStr.drop 5 (PyStr.strip u))) = false ->
  (exists out, fst (process_request E u st) = Ok out) /\
  (snd (process_request E u st)).(pending_command)
    = Some (PyStr.strip (PyStr.drop 5 (PyStr.strip u))) /\
  (snd (process_request E u st)).(pending_command_reason) = Some "Not in safe allowlist".
Proof.
  intros Hrun Htr Hal.
  remember (PyStr.strip u) as s eqn:Hs.
  destruct (startswith_app _ _ Hrun) as [rest Hsl].
  remember (PyStr.strip (PyStr.drop 5 s)) as cmd eqn:Hcmd.
  unfold process_request, request_body. rewrite <- Hs, Hsl, <- Hcmd.
  unfold PyStr.startswith. simpl.
  rewrite !prefix_empty, Htr, Hal.
  unfold try_except, bind, ret, get, modify, reply, _queue_command, _append_history,
    remember, save_memory.
  simpl. repeat split; eauto.
Qed.

(** C3: the session has a single pending slot; queuing [B] after [A]
    leaves exactly [B] with [B]'s reason, both through [_queue_command]
    and through two "/run" requests whose commands are refused. *)
Theorem queue_twice_keeps_latest (E : env) (st : agent) (ua ub : string) :
  (forall a ra b rb,
     let st2 := snd (_queue_command b rb (snd (_queue_command a ra st))) in
     st2.(pending_command) = Some b /\ st2.(pending_command_reason) = Some rb) /\
  (is_refused_run ua = true -> is_refused_run ub = true ->
   let st2 := snd (process_request E ub (snd (process_request E ua st))) in
   st2.(pending_command) = Some (run_arg ub) /\
   st2.(pending_command_reason) = Some "Not in safe allowlist").
Proof.
  split; [intros; apply queue_command_overwrites|].
  intros _ Hb. unfold is_refused_run in Hb.
  apply andb_prop in Hb as [Hb Hal]. apply andb_prop in Hb as [Hrun Htr].
  apply negb_true_iff in Hal.
  destruct (run_request_queues E (snd (process_request E ua st)) ub Hrun Htr Hal)
    as (_ & Hp & Hr).
  split; assumption.
Qed.

Lemma queue_twice_keeps_latest_witness :
  is_refused_run "/run rm -rf build" = true /\ is_refused_run "/run del notes.txt" = true /\
  (let st2 := snd (process_request (env_fixed "p" "a") "/run del notes.txt"
                     (snd (process_request (env_fixed "p" "a") "/run rm -rf build" st0))) in
   st2.(pending_command) = Some (run_arg "/run del notes.txt") /\
   st2.(pending_command_reason) = Some "Not in safe allowlist").
Proof.
  split; [reflexivity|]. split; [reflexivity|].
  apply (queue_twice_keeps_latest (env_fixed "p" "a") st0
           "/run rm -rf build" "/run del notes.txt"); reflexivity.
Defined.

(** ** Routing of requests that are no slash command *)

Lemma not_slash_guards (sl : string) :
  PyStr.startswith sl "/" = false ->
  (forall x, String.eqb sl (String "/" x) = false) /\
  (forall x, PyStr.startswith sl (String "/" x) = false).
Proof.
  unfold PyStr.startswith. intros H.
  destruct sl as [|c r]; [split; reflexivity|].
  rewrite prefix_cons in H.
  destruct (ascii_dec "/" c) as [<-|Hc]; [rewrite prefix_empty in H; discriminate|].
  split; intros x.
  - simpl. destruct (Ascii.eqb_spec c "/"); [congruence|reflexivity].
  - rewrite prefix_cons. destruct (ascii_dec "/" c); [congruence|reflexivity].
Qed.

Lemma request_body_unslashed (E : env) (u : string) :
  PyStr.startswith (PyStr.lower (PyStr.strip u)) "/" = false ->
  request_body E u =
    (let* _ := _append_history "user" u in
     let* _ := remember "last_request" (JStr u) in
     planner_path E u).
Proof.
  intros H. destruct (not_slash_guards _ H) as [Heq Hsw].
  unfold request_body. cbv zeta.
  rewrite !Heq, !Hsw. reflexivity.
Qed.

(** The decoded form of the spec's round-trip example. *)
Lemma hello_plan_decodes :
  json_loads hello_plan_text =
  Some (JObj [("type", JStr "plan");
              ("actions", JArr [JObj [("tool", JStr "reply"); ("text", JStr "hello")]])]).
Proof. vm_compute. reflexivity. Qed.

(** C5: the planner output
    {"type":"plan","actions":[{"tool":"reply","text":"hello"}]} decodes to
    a plan whose execution yields exactly "hello", and a request routed to
    the planner that answers with it returns "hello". *)
Theorem plan_roundtrip_hello (E : env) (st : agent) (u : string) :
  (exists p, json_loads hello_plan_text = Some p /\ is_plan_text hello_plan_text = true /\
             _execute_plan E p st = (Ok "hello", st)) /\
  (PyStr.startswith (PyStr.lower (PyStr.strip u)) "/" = false ->
   (forall st', E.(plan) st' u = Ok hello_plan_text) ->
   fst (process_request E u st) = Ok "hello").
Proof.
  split.
  - eexists. split; [apply hello_plan_decodes|]. split; [vm_compute; reflexivity|].
    reflexivity.
  - intros Hu Hp. unfold process_request. rewrite (request_body_unslashed E u Hu).
    unfold try_except, planner_path, _append_history, remember, save_memory,
      bind, get, lift, modify, ret.
    simpl. rewrite Hp. unfold try_plan. rewrite hello_plan_decodes. reflexivity.
Qed.

Lemma plan_roundtrip_hello_witness :
  PyStr.startswith (PyStr.lower (PyStr.strip "say hello")) "/" = false /\
  (forall st', (env_fixed hello_plan_text "chat").(plan) st' "say hello" = Ok hello_plan_text) /\
  fst (process_request (env_fixed hello_plan_text "chat") "say hello" st0) = Ok "hello".
Proof.
  split; [reflexivity|]. split; [reflexivity|].
  apply (plan_roundtrip_hello (env_fixed hello_plan_text "chat") st0 "say hello");
    [reflexivity | intros; reflexivity].
Defined.

(** ** Planner output that is no plan *)

Lemma planner_path_non_plan (E : env) (u planned : string) (st : agent) :
  E.(plan) st u = Ok planned -> is_plan_text planned = false ->
  planner_path E u st = normal_response E u st.
Proof.
  intros Hp Hpl. unfold planner_path, bind at 1, get. simpl.
  unfold bind at 1, lift. rewrite Hp. simpl. unfold bind at 1.
  unfold is_plan_text in Hpl.
  destruct (PyStr.startswith planned "{") eqn:Hb; [|reflexivity].
  simpl in Hpl. unfold try_except, try_plan.
  destruct (json_loads planned) as [[| | | | | kv]|]; try reflexivity.
  rewrite Hpl. reflexivity.
Qed.

Lemma normal_response_ok (E : env) (u c : string) (st : agent) :
  (forall st', E.(chat) st' u = Ok c) ->
  (forall st' t, exists r, E.(rag_add) st' t = Ok r) ->
  fst (normal_response E u st) = Ok c.
Proof.
  intros Hc Hr. unfold normal_response, bind at 1, get. simpl.
  unfold bind at 1, lift. rewrite Hc.
  unfold bind at 1. unfold _append_history, remember, save_memory, bind, modify, get, ret.
  simpl. destruct (rag_enabled st); [|reflexivity].
  unfold lift. match goal with |- context [E.(rag_add) ?s ?t] => destruct (Hr s t) as [r ->] end.
  reflexivity.
Qed.

(** C7 (as the code has it): a planner output that does not take the plan
    branch (no leading brace, undecodable, or a decoded "type" other than
    "plan") raises nothing; the request falls through to the normal
    response path and returns the main model's reply, not the planner's
    text. *)
Theorem non_plan_output_normal_path (E : env) (st : agent) (u planned c : string) :
  PyStr.startswith (PyStr.lower (PyStr.strip u)) "/" = false ->
  (forall st', E.(plan) st' u = Ok planned) ->
  is_plan_text planned = false ->
  (forall st', E.(chat) st' u = Ok c) ->
  (forall st' t, exists r, E.(rag_add) st' t = Ok r) ->
  fst (process_request E u st) = Ok c.
Proof.
  intros Hu Hp Hpl Hc Hr. unfold process_request. rewrite (request_body_unslashed E u Hu).
  unfold try_except, _append_history, remember, save_memory, bind, modify.
  simpl. rewrite planner_path_non_plan with (planned := planned) by auto.
  match goal with
  | |- context [normal_response E u ?s] =>
      pose proof (normal_response_ok E u c s Hc Hr) as Hn;
      destruct (normal_response E u s) as [[x|e] st']; simpl in *; congruence
  end.
Qed.

Lemma non_plan_output_normal_path_witness :
  let E := env_fixed "Sure, here's your answer." "Hi, how can I help?" in
  PyStr.startswith (PyStr.lower (PyStr.strip "hello")) "/" = false /\
  (forall st', E.(plan) st' "hello" = Ok "Sure, here's your answer.") /\
  is_plan_text "Sure, here's your answer." = false /\
  (forall st', E.(chat) st' "hello" = Ok "Hi, how can I help?") /\
  (forall st' t, exists r, E.(rag_add) st' t = Ok r) /\
  fst (process_request E "hello" st0) = Ok "Hi, how can I help?".
Proof.
  cbv zeta.
  assert (Hr : forall st' t, exists r,
    (env_fixed "Sure, here's your answer." "Hi, how can I help?").(rag_add) st' t = Ok r)
    by (intros; eexists; reflexivity).
  split; [reflexivity|]. split; [reflexivity|]. split; [reflexivity|].
  split; [reflexivity|]. split; [exact Hr|].
  apply (non_plan_output_normal_path
           (env_fixed "Sure, here's your answer." "Hi, how can I help?") st0
           "hello" "Sure, here's your answer."); auto.
Defined.

(** C7 as stated fails: the planner's free text is not returned verbatim. *)
Lemma non_plan_output_not_verbatim :
  fst (process_request (env_fixed "Sure, here's your answer." "Hi, how can I help?")
         "hello" st0) <> Ok "Sure, here's your answer.".
Proof. vm_compute. discriminate. Qed.

(** ** The session boundary *)

Lemma no_base_ret {A} (a : A) : no_base (ret a).
Proof. intros st. exact I. Qed.

Lemma no_base_get : no_base get.
Proof. intros st. exact I. Qed.

Lemma no_base_modify (f : agent -> agent) : no_base (modify f).
Proof. intros st. exact I. Qed.

Lemma no_base_lift {A} (r : res A) : no_base_raise r -> no_base (lift r).
Proof. intros H st. exact H. Qed.

Lemma no_base_raise_exc {A} (e : exn) : exn_cls e = PyException -> no_base (@raise A e).
Proof. intros H st. exact H. Qed.

Lemma no_base_bind {A B} (m : M A) (k : A -> M B) :
  no_base m -> (forall a, no_base (k a)) -> no_base (bind m k).
Proof.
  intros Hm Hk st. unfold bind. specialize (Hm st).
  destruct (m st) as [[a|e] st']; [apply Hk | exact Hm].
Qed.

Lemma no_base_try {A} (m : M A) (h : exn -> M A) :
  no_base m -> (forall e, no_base (h e)) -> no_base (try_except m h).
Proof.
  intros Hm Hh st. unfold try_except. specialize (Hm st).
  destruct (m st) as [[a|e] st']; [exact I|]. simpl in Hm.
  rewrite Hm. apply Hh.
Qed.

Ltac no_base_tac HE :=
  repeat (cbv zeta; match goal with
  | |- no_base (bind _ _) => apply no_base_bind; [|intros ?]
  | |- no_base (ret _) => apply no_base_ret
  | |- no_base get => apply no_base_get
  | |- no_base (modify _) => apply no_base_modify
  | |- no_base (lift _) => apply no_base_lift
  | |- no_base (raise _) => apply no_base_raise_exc; reflexivity
  | |- no_base (try_except _ _) => apply no_base_try; [|intros ?]
  | |- no_base (slash_helper _ _) => apply (eo_slash _ HE)
  | |- no_base_raise (init_llm _ _) => apply (eo_init _ HE)
  | |- no_base_raise (plan _ _ _) => apply (eo_plan _ HE)
  | |- no_base_raise (chat _ _ _) => apply (eo_chat _ HE)
  | |- no_base_raise (rag_add _ _ _) => apply (eo_rag _ HE)
  | |- no_base_raise (run_command _ _) => apply (eo_run _ HE)
  | |- no_base_raise (create_file _ _ _) => apply (eo_create _ HE)
  | |- no_base_raise (web_search _ _) => apply (eo_web _ HE)
  | |- no_base (match _ with _ => _ end) => case_match
  | |- no_base _ =>
      progress unfold reply, _append_history, remember, save_memory, set_model,
        set_planner_model, _confirm_command, _cancel_command, _queue_command,
        planner_path, try_plan, normal_response, _execute_plan, iter_actions,
        join_outputs, exec_action
  end).

Lemma exec_actions_no_base (E : env) (l : list json) (acc : list json) :
  env_exception_only E -> no_base (exec_actions E l acc).
Proof.
  intros HE. revert acc. induction l as [|a l IH]; intros acc; simpl.
  - apply no_base_ret.
  - apply no_base_bind; [|intros; apply IH]. no_base_tac HE.
Qed.

Lemma request_body_no_base (E : env) (u : string) :
  env_exception_only E -> no_base (request_body E u).
Proof.
  intros HE. unfold request_body. no_base_tac HE.
  all: try (apply exec_actions_no_base; exact HE).
Qed.


Lemma env_fixed_exception_only (planned answer : string) :
  env_exception_only (env_fixed planned answer).
Proof. split; intros; try exact I. intros st. exact I. Qed.



(** ** Fail-soft plan execution *)

Lemma exec_actions_app (E : env) (l l' : list json) (acc : list json) (st : agent) :
  exec_actions E (l ++ l') acc st = bind (exec_actions E l acc) (fun o => exec_actions E l' o) st.
Proof.
  revert acc st. induction l as [|a l IH]; intros acc st; simpl; [reflexivity|].
  unfold bind. destruct (exec_action E a acc st) as [[o|e] st']; [|reflexivity].
  specialize (IH o st'). unfold bind in IH. exact IH.
Qed.

Lemma exec_action_wf (E : env) (a : json) :
  env_tools_return E -> wf_action a = true ->
  exists xs, forall acc st, exec_action E a acc st = (Ok (acc ++ map JStr xs)%list, st).
Proof.
  intros (Hc & Hr & Hw) Ha. destruct a as [| | | | |kv]; try discriminate.
  simpl in Ha. unfold exec_action.
  destruct (is_str_lit (obj_get kv "tool") "create_file").
  { destruct (jtruthy (obj_get_default kv "path" JNull)); simpl.
    - destruct (Hc (obj_get_default kv "path" JNull) (obj_get_default kv "content" (JStr "")))
        as [o Ho].
      exists [o]. intros. unfold bind, lift. rewrite Ho. reflexivity.
    - exists [msg_missing_path]. reflexivity. }
  destruct (is_str_lit (obj_get kv "tool") "run_command").
  { destruct (jtruthy (obj_get_default kv "command" JNull)); simpl.
    - destruct (Hr (obj_get_default kv "command" JNull)) as [o Ho].
      exists [o]. intros. unfold bind, lift. rewrite Ho. reflexivity.
    - exists ["❌ run_command missing 'command'"]. reflexivity. }
  destruct (is_str_lit (obj_get kv "tool") "web_search").
  { destruct (jtruthy (obj_get_default kv "query" JNull)); simpl.
    - destruct (Hw (obj_get_default kv "query" JNull)) as [o Ho].
      exists [o]. intros. unfold bind, lift. rewrite Ho. reflexivity.
    - exists ["❌ web_search missing 'query'"]. reflexivity. }
  destruct (is_str_lit (obj_get kv "tool") "reply").
  { destruct (obj_get_default kv "text" (JStr "")) as [|b|z|t|l|kv'];
      simpl in Ha |- *;
      [ exists []; intros; rewrite app_nil_r; reflexivity | | | | | ];
      try (apply negb_true_iff in Ha; rewrite Ha;
           exists []; intros; rewrite app_nil_r; reflexivity).
    destruct (PyStr.truthy t) eqn:Htt.
    - exists [t]. reflexivity.
    - exists []. intros. rewrite app_nil_r. reflexivity. }
  exists ["❌ Unknown tool in plan: " +:+
          py_str (match obj_get kv "tool" with Some t => t | None => JNull end)].
  reflexivity.
Qed.

Lemma exec_actions_wf (E : env) (l : list json) :
  env_tools_return E -> forallb wf_action l = true ->
  exists xs, forall acc st, exec_actions E l acc st = (Ok (acc ++ map JStr xs)%list, st).
Proof.
  intros HE. induction l as [|a l IH]; simpl; intros Hl.
  - exists []. intros. rewrite app_nil_r. reflexivity.
  - apply andb_prop in Hl as [Ha Hl].
    destruct (exec_action_wf E a HE Ha) as [xs Hx].
    destruct (IH Hl) as [ys Hy].
    exists (xs ++ ys)%list. intros acc st. unfold bind. rewrite Hx, Hy.
    rewrite map_app, app_assoc. reflexivity.
Qed.

Lemma filter_keep_map (ys : list string) :
  List.filter keep_output (map JStr ys) = map JStr (List.filter PyStr.truthy ys).
Proof.
  induction ys as [|y ys IH]; simpl; [reflexivity|].
  destruct y; simpl; rewrite IH; reflexivity.
Qed.

Lemma all_str_map (zs : list string) : all_str (map JStr zs) = Some zs.
Proof. induction zs as [|z zs IH]; simpl; [|rewrite IH]; reflexivity. Qed.

Lemma exec_pathless_create_file (E : env) (a : json) (acc : list json) (st : agent) :
  is_pathless_create_file a = true ->
  exec_action E a acc st = (Ok (acc ++ [JStr msg_missing_path])%list, st).
Proof.
  destruct a as [| | | | |kv]; try discriminate. simpl.
  intros H. apply andb_prop in H as [Ht Hp]. apply negb_true_iff in Hp.
  unfold exec_action. rewrite Ht, Hp. reflexivity.
Qed.

Lemma exec_reply_text (E : env) (a : json) (t : string) (acc : list json) (st : agent) :
  is_reply_text a t = true -> PyStr.truthy t = true ->
  exec_action E a acc st = (Ok (acc ++ [JStr t])%list, st).
Proof.
  destruct a as [| | | | |kv]; try discriminate. simpl.
  intros H Htt. apply andb_prop in H as [Ht Hx].
  unfold exec_action.
  destruct (is_str_lit (obj_get kv "tool") "create_file") eqn:H1.
  { destruct (obj_get kv "tool") as [[| | |s| |]|]; try discriminate.
    simpl in *. apply String.eqb_eq in H1, Ht. congruence. }
  destruct (is_str_lit (obj_get kv "tool") "run_command") eqn:H2.
  { destruct (obj_get kv "tool") as [[| | |s| |]|]; try discriminate.
    simpl in *. apply String.eqb_eq in H2, Ht. congruence. }
  destruct (is_str_lit (obj_get kv "tool") "web_search") eqn:H3.
  { destruct (obj_get kv "tool") as [[| | |s| |]|]; try discriminate.
    simpl in *. apply String.eqb_eq in H3, Ht. congruence. }
  rewrite Ht.
  destruct (obj_get_default kv "text" (JStr "")) as [| | |t'| |]; try discriminate.
  apply String.eqb_eq in Hx. subst t'. simpl. rewrite Htt. reflexivity.
Qed.

Lemma exec_action_obj (E : env) (a : json) (acc : list json) (st : agent) :
  env_tools_return E -> is_obj a = true ->
  exists acc', exec_action E a acc st = (Ok acc', st).
Proof.
  intros (Hc & Hr & Hw) Ha. destruct a as [| | | | |kv]; try discriminate.
  unfold exec_action.
  destruct (is_str_lit (obj_get kv "tool") "create_file").
  { destruct (jtruthy (obj_get_default kv "path" JNull)); simpl; [|eexists; reflexivity].
    destruct (Hc (obj_get_default kv "path" JNull) (obj_get_default kv "content" (JStr "")))
      as [o Ho].
    unfold bind, lift. rewrite Ho. eexists; reflexivity. }
  destruct (is_str_lit (obj_get kv "tool") "run_command").
  { destruct (jtruthy (obj_get_default kv "command" JNull)); simpl; [|eexists; reflexivity].
    destruct (Hr (obj_get_default kv "command" JNull)) as [o Ho].
    unfold bind, lift. rewrite Ho. eexists; reflexivity. }
  destruct (is_str_lit (obj_get kv "tool") "web_search").
  { destruct (jtruthy (obj_get_default kv "query" JNull)); simpl; [|eexists; reflexivity].
    destruct (Hw (obj_get_default kv "query" JNull)) as [o Ho].
    unfold bind, lift. rewrite Ho. eexists; reflexivity. }
  destruct (is_str_lit (obj_get kv "tool") "reply").
  { destruct (jtruthy (obj_get_default kv "text" (JStr ""))); eexists; reflexivity. }
  eexists; reflexivity.
Qed.

Lemma exec_actions_objs (E : env) (l : list json) (acc : list json) (st : agent) :
  env_tools_return E -> forallb is_obj l = true ->
  exists acc', exec_actions E l acc st = (Ok acc', st).
Proof.
  intros HE. revert acc. induction l as [|a l IH]; simpl; intros acc Hl.
  - eexists; reflexivity.
  - apply andb_prop in Hl as [Ha Hl].
    destruct (exec_action_obj E a acc st HE Ha) as [acc1 H1].
    unfold bind. rewrite H1. exact (IH acc1 Hl).
Qed.

Lemma exec_action_non_obj (E : env) (a : json) (acc : list json) (st : agent) :
  is_obj a = false ->
  exec_action E a acc st = (Raise (attribute_error "object has no attribute 'get'"), st).
Proof. destruct a; try discriminate; reflexivity. Qed.

Lemma exec_actions_bad_entry (E : env) (l1 l2 : list json) (a : json)
  (acc : list json) (st : agent) :
  is_obj a = false ->
  exists e st', exec_actions E (l1 ++ a :: l2) acc st = (Raise e, st').
Proof.
  intros Ha. rewrite exec_actions_app. unfold bind.
  destruct (exec_actions E l1 acc st) as [[o|e] st']; [|eexists; eexists; reflexivity].
  simpl. unfold bind. rewrite exec_action_non_obj by exact Ha.
  eexists; eexists; reflexivity.
Qed.

Lemma plan_raise_at_bad_entry (E : env) (st : agent) (pkv : list (string * json))
  (acts : list json) (e : exn) (st' : agent) :
  obj_get pkv "actions" = Some (JArr acts) ->
  exec_actions E acts [] st = (Raise e, st') ->
  _execute_plan E (JObj pkv) st = (Raise e, st').
Proof.
  intros Hacts Hx. unfold _execute_plan, obj_get_default. rewrite Hacts.
  unfold bind, iter_actions. rewrite Hx. reflexivity.
Qed.

(** C6 (as the code has it): in a plan whose action entries are JSON
    objects (reply texts being strings or falsy), a [create_file] action
    without path followed, anywhere later, by a reply with non-empty text
    [t] does not abort execution: the joined result is made of the
    non-empty outputs [xs1] of the actions before it, the inline error, the
    non-empty outputs [xs2] of the actions in between, [t], and the
    non-empty outputs [xs3] of the actions after, each [xs] being what
    those actions produce when run on their own. An action entry that is
    not a JSON object makes the executor raise and abandons the plan; when
    the entries before it are objects and the helpers return, the error
    is the AttributeError of [action.get]. *)
Theorem plan_fail_soft (E : env) (st : agent) :
  (forall (pkv : list (string * json)) (l1 l2 l3 : list json) (cf rp : json) (t : string),
     env_tools_return E ->
     forallb wf_action (l1 ++ l2 ++ l3) = true ->
     obj_get pkv "actions" = Some (JArr (l1 ++ cf :: l2 ++ rp :: l3)) ->
     is_pathless_create_file cf = true ->
     is_reply_text rp t = true -> PyStr.truthy t = true ->
     exists xs1 xs2 xs3,
       (forall acc st', exec_actions E l1 acc st' = (Ok (acc ++ map JStr xs1)%list, st')) /\
       (forall acc st', exec_actions E l2 acc st' = (Ok (acc ++ map JStr xs2)%list, st')) /\
       (forall acc st', exec_actions E l3 acc st' = (Ok (acc ++ map JStr xs3)%list, st')) /\
       _execute_plan E (JObj pkv) st =
       (Ok (PyStr.join nl (List.filter PyStr.truthy
                             (xs1 ++ msg_missing_path :: xs2 ++ t :: xs3))%list), st)) /\
  (forall (pkv : list (string * json)) (l1 l2 : list json) (a : json),
     obj_get pkv "actions" = Some (JArr (l1 ++ a :: l2)) ->
     is_obj a = false ->
     (exists e st', _execute_plan E (JObj pkv) st = (Raise e, st')) /\
     (env_tools_return E -> forallb is_obj l1 = true ->
      _execute_plan E (JObj pkv) st =
      (Raise (attribute_error "object has no attribute 'get'"), st))).
Proof.
  split.
  - intros pkv l1 l2 l3 cf rp t HE Hwf Hacts Hcf Hrp Ht.
    rewrite !forallb_app in Hwf.
    apply andb_prop in Hwf as [H1 Hwf]. apply andb_prop in Hwf as [H2 H3].
    destruct (exec_actions_wf E l1 HE H1) as [xs1 X1].
    destruct (exec_actions_wf E l2 HE H2) as [xs2 X2].
    destruct (exec_actions_wf E l3 HE H3) as [xs3 X3].
    exists xs1, xs2, xs3. split; [exact X1|]. split; [exact X2|]. split; [exact X3|].
    unfold _execute_plan, obj_get_default. rewrite Hacts.
    unfold bind at 1, iter_actions.
    rewrite exec_actions_app. unfold bind at 1. rewrite X1. simpl.
    unfold bind at 1. rewrite exec_pathless_create_file by exact Hcf.
    rewrite exec_actions_app. unfold bind at 1. rewrite X2. simpl.
    unfold bind at 1. rewrite (exec_reply_text E rp t) by assumption.
    rewrite X3.
    replace ((((map JStr xs1 ++ [JStr msg_missing_path]) ++ map JStr xs2) ++ [JStr t])
              ++ map JStr xs3)%list
      with (map JStr (xs1 ++ msg_missing_path :: xs2 ++ t :: xs3))%list
      by (rewrite !map_app; simpl; rewrite !map_app, <- !app_assoc; reflexivity).
    unfold join_outputs. rewrite filter_keep_map, all_str_map. reflexivity.
  - intros pkv l1 l2 a Hacts Ha. split.
    + destruct (exec_actions_bad_entry E l1 l2 a [] st Ha) as (e & st' & Hx).
      exists e, st'. exact (plan_raise_at_bad_entry E st pkv _ e st' Hacts Hx).
    + intros HE Hl1. apply (plan_raise_at_bad_entry E st pkv _ _ _ Hacts).
      rewrite exec_actions_app. unfold bind.
      destruct (exec_actions_objs E l1 [] st HE Hl1) as [o Ho]. rewrite Ho.
      simpl. unfold bind. rewrite exec_action_non_obj by exact Ha. reflexivity.
Qed.

Lemma env_fixed_tools_return (planned answer : string) :
  env_tools_return (env_fixed planned answer).
Proof. split; [|split]; intros; eexists; reflexivity. Qed.

Lemma plan_fail_soft_witness :
  (env_tools_return (env_fixed "p" "a") /\
   forallb wf_action (fs_before ++ fs_between ++ fs_after)%list = true /\
   obj_get fs_plan "actions" = Some (JArr (fs_before ++ fs_cf :: fs_between ++ fs_rp :: fs_after)%list) /\
   is_pathless_create_file fs_cf = true /\ is_reply_text fs_rp "hello" = true /\
   PyStr.truthy "hello" = true /\
   exists xs1 xs2 xs3,
     (forall acc st', exec_actions (env_fixed "p" "a") fs_before acc st'
                      = (Ok (acc ++ map JStr xs1)%list, st')) /\
     (forall acc st', exec_actions (env_fixed "p" "a") fs_between acc st'
                      = (Ok (acc ++ map JStr xs2)%list, st')) /\
     (forall acc st', exec_actions (env_fixed "p" "a") fs_after acc st'
                      = (Ok (acc ++ map JStr xs3)%list, st')) /\
     _execute_plan (env_fixed "p" "a") (JObj fs_plan) st0 =
     (Ok (PyStr.join nl (List.filter PyStr.truthy
                           (xs1 ++ msg_missing_path :: xs2 ++ "hello" :: xs3))%list), st0)) /\
  (obj_get fs_bad_plan "actions" = Some (JArr (fs_before ++ JStr "oops" :: fs_between ++ fs_rp :: fs_after)%list) /\
   is_obj (JStr "oops") = false /\
   forallb is_obj fs_before = true /\
   _execute_plan (env_fixed "p" "a") (JObj fs_bad_plan) st0 =
   (Raise (attribute_error "object has no attribute 'get'"), st0)).
Proof.
  split.
  - split; [apply env_fixed_tools_return|].
    do 5 (split; [reflexivity|]).
    apply (proj1 (plan_fail_soft (env_fixed "p" "a") st0) fs_plan fs_before fs_between fs_after
             fs_cf fs_rp "hello");
      [apply env_fixed_tools_return | reflexivity ..].
  - do 3 (split; [reflexivity|]).
    apply (proj2 (proj2 (plan_fail_soft (env_fixed "p" "a") st0) fs_bad_plan fs_before
                     (fs_between ++ fs_rp :: fs_after)%list (JStr "oops") eq_refl eq_refl)
                 (env_fixed_tools_return "p" "a") eq_refl).
Defined.

(** C6 as stated fails: one action entry that is no JSON object (the
    string 'oops') makes [action.get] raise AttributeError, which aborts
    the plan; [process_request] then takes the normal response path and
    the answer holds neither the inline error nor "hello". *)
Lemma plan_bad_entry_aborts :
  json_loads bad_entry_plan_text =
    Some (JObj [("type", JStr "plan");
                ("actions", JArr [JObj [("tool", JStr "create_file")]; JStr "oops";
                                  JObj [("tool", JStr "reply"); ("text", JStr "hello")]])]) /\
  fst (_execute_plan (env_fixed "p" "a")
         (JObj [("type", JStr "plan");
                ("actions", JArr [JObj [("tool", JStr "create_file")]; JStr "oops";
                                  JObj [("tool", JStr "reply"); ("text", JStr "hello")]])]) st0)
    = Raise (attribute_error "object has no attribute 'get'") /\
  fst (process_request (env_fixed bad_entry_plan_text "Hi, how can I help?") "build it" st0)
    = Ok "Hi, how can I help?".
Proof. split; [|split]; vm_compute; reflexivity. Qed.

(* ================================================================== *)
(** * Further properties of the agent *)

(** ** String lemmas *)

Lemma sapp_assoc (a b c : string) : (a +:+ b) +:+ c = a +:+ b +:+ c.
Proof. induction a as [|x a IH]; simpl; [reflexivity|]. rewrite IH. reflexivity. Qed.

Lemma sapp_nil_r (a : string) : a +:+ "" = a.
Proof. induction a as [|x a IH]; simpl; [reflexivity|]. rewrite IH. reflexivity. Qed.

Lemma slen_app (a b : string) :
  String.length (a +:+ b) = (String.length a + String.length b)%nat.
Proof. induction a as [|x a IH]; simpl; [reflexivity|]. rewrite IH. reflexivity. Qed.

Lemma sdrop_app_le (k : nat) (a b : string) :
  (k <= String.length a)%nat -> PyStr.drop k (a +:+ b) = PyStr.drop k a +:+ b.
Proof.
  revert a. induction k as [|k IH]; intros a H; [reflexivity|].
  destruct a as [|x a]; simpl in *; [lia|]. apply IH. lia.
Qed.

Lemma sdrop_length (k : nat) (a : string) :
  String.length (PyStr.drop k a) = (String.length a - k)%nat.
Proof.
  revert a. induction k as [|k IH]; intros a; simpl; [lia|].
  destruct a as [|x a]; simpl; [reflexivity|]. apply IH.
Qed.

Lemma sdrop_prefix (a b : string) : PyStr.drop (String.length a) (a +:+ b) = b.
Proof. induction a as [|x a IH]; simpl; [reflexivity|]. exact IH. Qed.

Lemma prefix_app (a b : string) : String.prefix a (a +:+ b) = true.
Proof.
  induction a as [|x a IH]; [apply prefix_empty|].
  change (String x a +:+ b) with (String x (a +:+ b)).
  rewrite prefix_cons. destruct (ascii_dec x x); [exact IH | congruence].
Qed.

Lemma has_char_app (c : ascii) (a b : string) :
  has_char c (a +:+ b) = has_char c a || has_char c b.
Proof.
  induction a as [|x a IH]; simpl; [reflexivity|]. rewrite IH, orb_assoc. reflexivity.
Qed.

(** ** [str.find] and slicing *)

Lemma find_hit (sub b : string) (i : nat) :
  String.prefix sub b = true -> find_aux sub b i = Some i.
Proof. intros H. destruct b; cbn [find_aux]; rewrite H; reflexivity. Qed.

Lemma find_skip (c : ascii) (sub a b : string) (i : nat) :
  has_char c a = false ->
  find_aux (String c sub) (a +:+ b) i = find_aux (String c sub) b (i + String.length a).
Proof.
  revert i. induction a as [|x a IH]; intros i H.
  - simpl. rewrite Nat.add_0_r. reflexivity.
  - simpl in H. apply orb_false_iff in H as [Hx Ha].
    change (String x a +:+ b) with (String x (a +:+ b)).
    change (find_aux (String c sub) (String x (a +:+ b)) i) with
      (if String.prefix (String c sub) (String x (a +:+ b)) then Some i
       else find_aux (String c sub) (a +:+ b) (S i)).
    rewrite prefix_cons. destruct (ascii_dec c x) as [->|_].
    + rewrite Ascii.eqb_refl in Hx. discriminate.
    + rewrite IH by exact Ha. f_equal. simpl. lia.
Qed.

Lemma find_none (c : ascii) (sub s : string) (i : nat) :
  has_char c s = false -> find_aux (String c sub) s i = None.
Proof.
  revert i. induction s as [|x s IH]; intros i H; [reflexivity|].
  simpl in H. apply orb_false_iff in H as [Hx Hs].
  change (find_aux (String c sub) (String x s) i) with
    (if String.prefix (String c sub) (String x s) then Some i
     else find_aux (String c sub) s (S i)).
  rewrite prefix_cons. destruct (ascii_dec c x) as [->|_].
  - rewrite Ascii.eqb_refl in Hx. discriminate.
  - apply IH. exact Hs.
Qed.

Lemma py_find_split (a b sub : string) (c : ascii) (k : nat) :
  (k <= String.length a)%nat -> has_char c (PyStr.drop k a) = false ->
  String.prefix (String c sub) b = true ->
  py_find (a +:+ b) (String c sub) k = Z.of_nat (String.length a).
Proof.
  intros Hk Hc Hp. unfold py_find.
  rewrite slen_app. replace (Nat.ltb _ k) with false by (symmetry; apply Nat.ltb_ge; lia).
  rewrite sdrop_app_le by exact Hk. rewrite find_skip by exact Hc.
  rewrite find_hit by exact Hp. rewrite sdrop_length. f_equal. lia.
Qed.

Lemma py_find_missing (s sub : string) (c : ascii) (k : nat) :
  (k <= String.length s)%nat -> has_char c (PyStr.drop k s) = false ->
  py_find s (String c sub) k = (-1)%Z.
Proof.
  intros Hk Hc. unfold py_find.
  replace (Nat.ltb _ k) with false by (symmetry; apply Nat.ltb_ge; lia).
  rewrite find_none by exact Hc. reflexivity.
Qed.

Lemma substring_app_skip (a b : string) (n : nat) :
  String.substring (String.length a) n (a +:+ b) = String.substring 0 n b.
Proof. induction a as [|x a IH]; simpl; [reflexivity|]. exact IH. Qed.

Lemma substring_prefix (a b : string) :
  String.substring 0 (String.length a) (a +:+ b) = a.
Proof. induction a as [|x a IH]; simpl; [destruct b; reflexivity|]. rewrite IH. reflexivity. Qed.

Lemma of_nat_neq_m1 (n : nat) : (Z.of_nat n =? -1)%Z = false.
Proof. apply Z.eqb_neq. lia. Qed.

(** X1: a fenced block is found by its language tag: for a reply
    [pre ```lang info \n code ``` post] with no backquote before the
    fence or inside the code and no newline in the fence line, the
    extracted text is the stripped code; the tag only has to start with
    the requested language. *)
Theorem extract_code_fenced_block (pre lang info code post : string) :
  has_char backquote pre = false ->
  has_char newline (lang +:+ info) = false ->
  has_char backquote code = false ->
  extract_code_content (pre +:+ fence +:+ lang +:+ info +:+ nl +:+ code +:+ fence +:+ post) lang
  = PyStr.strip code.
Proof.
  intros Hpre Hli Hcode.
  set (A := pre +:+ fence +:+ lang +:+ info).
  set (B := A +:+ nl).
  assert (HT : pre +:+ fence +:+ lang +:+ info +:+ nl +:+ code +:+ fence +:+ post
               = B +:+ code +:+ fence +:+ post).
  { unfold B, A. rewrite !sapp_assoc. reflexivity. }
  assert (H1 : py_find (B +:+ code +:+ fence +:+ post) (fence +:+ lang) 0
               = Z.of_nat (String.length pre)).
  { replace (B +:+ code +:+ fence +:+ post)
      with (pre +:+ (fence +:+ lang) +:+ (info +:+ nl +:+ code +:+ fence +:+ post))
      by (unfold B, A; rewrite !sapp_assoc; reflexivity).
    apply (py_find_split pre _ ("``" +:+ lang) backquote 0); [lia | exact Hpre | apply prefix_app]. }
  assert (H2 : py_find (B +:+ code +:+ fence +:+ post) nl (String.length pre)
               = Z.of_nat (String.length A)).
  { replace (B +:+ code +:+ fence +:+ post) with (A +:+ nl +:+ code +:+ fence +:+ post)
      by (unfold B; rewrite !sapp_assoc; reflexivity).
    apply (py_find_split A _ "" newline).
    - unfold A. rewrite slen_app. lia.
    - unfold A. rewrite sdrop_prefix. exact Hli.
    - apply prefix_app. }
  assert (HB : String.length B = (String.length A + 1)%nat).
  { unfold B. rewrite slen_app. reflexivity. }
  assert (H3 : py_find (B +:+ code +:+ fence +:+ post) fence (String.length B)
               = Z.of_nat (String.length (B +:+ code))).
  { replace (B +:+ code +:+ fence +:+ post) with ((B +:+ code) +:+ fence +:+ post)
      by (rewrite sapp_assoc; reflexivity).
    apply (py_find_split (B +:+ code) _ "``" backquote).
    - rewrite slen_app. lia.
    - rewrite sdrop_prefix. exact Hcode.
    - apply prefix_app. }
  unfold extract_code_content. cbv zeta. rewrite HT, H1, of_nat_neq_m1, Nat2Z.id, H2,
    of_nat_neq_m1.
  replace (Z.to_nat (Z.of_nat (String.length A) + 1)) with (String.length B) by lia.
  rewrite H3, of_nat_neq_m1. unfold py_slice.
  replace (Z.to_nat (Z.of_nat (String.length A) + 1)) with (String.length B) by lia.
  rewrite Nat2Z.id, slen_app.
  replace (String.length B + String.length code - String.length B)%nat
    with (String.length code) by lia.
  rewrite substring_app_skip, substring_prefix. reflexivity.
Qed.

Lemma extract_code_fenced_block_witness :
  has_char backquote "Here you go:" = false /\
  has_char newline ("py" +:+ "thon") = false /\
  has_char backquote "print(1)" = false /\
  extract_code_content ("Here you go:" +:+ fence +:+ "py" +:+ "thon" +:+ nl +:+ "print(1)"
                        +:+ fence +:+ " Done.") "py" = PyStr.strip "print(1)".
Proof.
  split; [reflexivity|]. split; [reflexivity|]. split; [reflexivity|].
  apply extract_code_fenced_block; reflexivity.
Defined.

Lemma prefix_app_long (sub s r : string) :
  (String.length sub <= String.length s)%nat ->
  String.prefix sub (s +:+ r) = String.prefix sub s.
Proof.
  revert s. induction sub as [|c sub IH]; intros s Hl.
  - rewrite !prefix_empty. reflexivity.
  - destruct s as [|x s]; simpl in Hl; [lia|].
    change (String x s +:+ r) with (String x (s +:+ r)).
    rewrite !prefix_cons. destruct (ascii_dec c x); [apply IH; lia | reflexivity].
Qed.

Lemma find_first_ext (sub pre r : string) (i : nat) :
  find_aux sub (pre +:+ sub) i = Some (i + String.length pre)%nat ->
  find_aux sub (pre +:+ sub +:+ r) i = Some (i + String.length pre)%nat.
Proof.
  revert i. induction pre as [|x pre IH]; intros i H.
  - simpl. rewrite Nat.add_0_r. apply find_hit. apply prefix_app.
  - change (String x pre +:+ sub) with (String x (pre +:+ sub)) in H.
    change (String x pre +:+ sub +:+ r) with (String x (pre +:+ sub +:+ r)).
    change (find_aux sub (String x (pre +:+ sub)) i) with
      (if String.prefix sub (String x (pre +:+ sub)) then Some i
       else find_aux sub (pre +:+ sub) (S i)) in H.
    change (find_aux sub (String x (pre +:+ sub +:+ r)) i) with
      (if String.prefix sub (String x (pre +:+ sub +:+ r)) then Some i
       else find_aux sub (pre +:+ sub +:+ r) (S i)).
    destruct (String.prefix sub (String x (pre +:+ sub))) eqn:Hp.
    { injection H as H. simpl in H. lia. }
    replace (String x (pre +:+ sub +:+ r)) with (String x (pre +:+ sub) +:+ r)
      by (simpl; rewrite sapp_assoc; reflexivity).
    rewrite prefix_app_long by (simpl; rewrite slen_app; lia). rewrite Hp.
    replace (i + String.length (String x pre))%nat with (S i + String.length pre)%nat
      by (simpl; lia).
    apply IH. rewrite H. f_equal. simpl. lia.
Qed.

Lemma find_none_shift (sub s : string) (i j : nat) :
  find_aux sub s i = None -> find_aux sub s j = None.
Proof.
  revert i j. induction s as [|x s IH]; intros i j H.
  - change (find_aux sub "" i) with (if String.prefix sub "" then Some i else None) in H.
    change (find_aux sub "" j) with (if String.prefix sub "" then Some j else None).
    destruct (String.prefix sub ""); [discriminate | reflexivity].
  - change (find_aux sub (String x s) i) with
      (if String.prefix sub (String x s) then Some i else find_aux sub s (S i)) in H.
    change (find_aux sub (String x s) j) with
      (if String.prefix sub (String x s) then Some j else find_aux sub s (S j)).
    destruct (String.prefix sub (String x s)); [discriminate|].
    exact (IH (S i) (S j) H).
Qed.

Lemma py_find_from_start (s sub : string) (n : nat) :
  py_find s sub 0 = Z.of_nat n -> find_aux sub s 0 = Some n.
Proof.
  unfold py_find. replace (Nat.ltb (String.length s) 0) with false
    by (symmetry; apply Nat.ltb_ge; lia).
  simpl. destruct (find_aux sub s 0) as [k|]; intros H; [|lia].
  f_equal. lia.
Qed.

Lemma py_find_absent (s sub : string) :
  py_find s sub 0 = (-1)%Z -> find_aux sub s 0 = None.
Proof.
  unfold py_find. replace (Nat.ltb (String.length s) 0) with false
    by (symmetry; apply Nat.ltb_ge; lia).
  simpl. destruct (find_aux sub s 0) as [k|]; intros H; [lia | reflexivity].
Qed.

(** X2: an unterminated block yields nothing: when the first
    ["```" + lang] of the reply opens a block whose fence line has no
    newline inside, and no "```" occurs in the rest after that line, the
    result is the empty string, not the partial code. Single or double
    backquotes before the fence or in the code are allowed. *)
Theorem extract_code_unterminated (pre lang info code : string) :
  py_find (pre +:+ fence +:+ lang) (fence +:+ lang) 0 = Z.of_nat (String.length pre) ->
  has_char newline (lang +:+ info) = false ->
  py_find code fence 0 = (-1)%Z ->
  extract_code_content (pre +:+ fence +:+ lang +:+ info +:+ nl +:+ code) lang = "".
Proof.
  intros Hpre Hli Hcode.
  set (A := pre +:+ fence +:+ lang +:+ info).
  set (B := A +:+ nl).
  assert (HT : pre +:+ fence +:+ lang +:+ info +:+ nl +:+ code = B +:+ code).
  { unfold B, A. rewrite !sapp_assoc. reflexivity. }
  assert (H1 : py_find (B +:+ code) (fence +:+ lang) 0 = Z.of_nat (String.length pre)).
  { replace (B +:+ code) with (pre +:+ (fence +:+ lang) +:+ (info +:+ nl +:+ code))
      by (unfold B, A; rewrite !sapp_assoc; reflexivity).
    apply py_find_from_start in Hpre.
    apply (find_first_ext (fence +:+ lang) pre (info +:+ nl +:+ code) 0) in Hpre.
    unfold py_find. replace (Nat.ltb _ 0) with false by (symmetry; apply Nat.ltb_ge; lia).
    change (PyStr.drop 0 ?x) with x. rewrite Hpre. reflexivity. }
  assert (H2 : py_find (B +:+ code) nl (String.length pre) = Z.of_nat (String.length A)).
  { replace (B +:+ code) with (A +:+ nl +:+ code)
      by (unfold B; rewrite !sapp_assoc; reflexivity).
    apply (py_find_split A _ "" newline).
    - unfold A. rewrite slen_app. lia.
    - unfold A. rewrite sdrop_prefix. exact Hli.
    - apply prefix_app. }
  assert (HB : String.length B = (String.length A + 1)%nat).
  { unfold B. rewrite slen_app. reflexivity. }
  assert (H3 : py_find (B +:+ code) fence (String.length B) = (-1)%Z).
  { unfold py_find. rewrite slen_app.
    replace (Nat.ltb _ _) with false by (symmetry; apply Nat.ltb_ge; lia).
    rewrite sdrop_prefix.
    rewrite (find_none_shift fence code 0 (String.length B)) by (apply py_find_absent; exact Hcode).
    reflexivity. }
  unfold extract_code_content. cbv zeta. rewrite HT, H1, of_nat_neq_m1, Nat2Z.id, H2,
    of_nat_neq_m1.
  replace (Z.to_nat (Z.of_nat (String.length A) + 1)) with (String.length B) by lia.
  rewrite H3. reflexivity.
Qed.

Lemma extract_code_unterminated_witness :
  py_find ("Run `ls` first, then:" +:+ fence +:+ "sh") (fence +:+ "sh") 0
    = Z.of_nat (String.length "Run `ls` first, then:") /\
  has_char newline ("sh" +:+ " script") = false /\
  py_find ("echo ``date`` `pwd`") fence 0 = (-1)%Z /\
  extract_code_content ("Run `ls` first, then:" +:+ fence +:+ "sh" +:+ " script" +:+ nl
                        +:+ "echo ``date`` `pwd`") "sh" = "".
Proof.
  split; [reflexivity|]. split; [reflexivity|]. split; [reflexivity|].
  apply extract_code_unterminated; reflexivity.
Defined.

(** ** History and memory *)

(** X3: with a positive cap, one append returns normally, persists in
    [memory["chat_history"]] exactly the newest [min 30 max_history]
    messages (the new one last), and changes no other memory key. *)
Theorem append_history_persists_tail (st : agent) (role content : string) :
  (0 < st.(max_history))%Z ->
  let h := (st.(chat_history) ++ [(role, content)])%list in
  let st' := snd (_append_history role content st) in
  fst (_append_history role content st) = Ok tt /\
  st'.(memory) !! "chat_history" =
    Some (history_json (drop (length h - Nat.min 30%nat (Z.to_nat st.(max_history))) h)) /\
  (forall k, k <> "chat_history" -> st'.(memory) !! k = st.(memory) !! k).
Proof.
  intros Hn. remember (Nat.min 30%nat (Z.to_nat st.(max_history))) as c eqn:Hc.
  destruct st as [h0 n m mn pm pc pr re]; cbn [max_history] in Hn, Hc. simpl.
  rewrite (py_tail_pos n) by exact Hn. rewrite (py_tail_pos 30) by lia.
  split; [reflexivity|]. split.
  - rewrite lookup_insert_eq. do 2 f_equal. rewrite drop_drop, length_drop. f_equal.
    subst c. change (Z.to_nat 30) with 30%nat. lia.
  - intros k Hk. rewrite lookup_insert_ne by congruence. reflexivity.
Qed.

Lemma append_history_persists_tail_witness :
  (0 < st0.(max_history))%Z /\
  (let h := (st0.(chat_history) ++ [("user", "hi")])%list in
   let st' := snd (_append_history "user" "hi" st0) in
   fst (_append_history "user" "hi" st0) = Ok tt /\
   st'.(memory) !! "chat_history" =
     Some (history_json (drop (length h - Nat.min 30%nat (Z.to_nat st0.(max_history))) h)) /\
   (forall k, k <> "chat_history" -> st'.(memory) !! k = st0.(memory) !! k)).
Proof. split; [reflexivity|]. apply append_history_persists_tail. reflexivity. Defined.

(** X4: [remember(key, value)] stores [value] under [key], except that
    the key "chat_history" is overwritten at once by the saved history;
    other keys and the history itself are left unchanged. *)
Theorem remember_lookup (st : agent) (key : string) (value : json) :
  let st' := snd (remember key value st) in
  fst (remember key value st) = Ok tt /\
  st'.(chat_history) = st.(chat_history) /\
  st'.(memory) !! key =
    Some (if String.eqb key "chat_history" then history_json (py_tail 30 st.(chat_history))
          else value) /\
  (forall k, k <> key -> k <> "chat_history" -> st'.(memory) !! k = st.(memory) !! k).
Proof.
  destruct st as [h0 n m mn pm pc pr re]; simpl.
  split; [reflexivity|]. split; [reflexivity|]. split.
  - destruct (String.eqb_spec key "chat_history") as [->|Hne].
    + rewrite lookup_insert_eq. reflexivity.
    + rewrite lookup_insert_ne by congruence. rewrite lookup_insert_eq. reflexivity.
  - intros k Hk Hc. rewrite !lookup_insert_ne by congruence. reflexivity.
Qed.

(** X5: a negative cap [max_history = -k] makes the slice
    [chat_history[k:]]: the oldest [k] entries are dropped, so with fewer
    than [k] earlier entries even the new message is discarded. *)
Theorem append_history_negative_cap (st : agent) (role content : string) (k : nat) :
  (0 < k)%nat -> st.(max_history) = (- Z.of_nat k)%Z ->
  (snd (_append_history role content st)).(chat_history)
    = drop k (st.(chat_history) ++ [(role, content)])%list /\
  ((length st.(chat_history) < k)%nat ->
   (snd (_append_history role content st)).(chat_history) = []).
Proof.
  intros Hk0 Hk. destruct st as [h0 n m mn pm pc pr re]; simpl in *. subst n.
  assert (Hd : py_tail (- Z.of_nat k) (h0 ++ [(role, content)])%list
               = drop k (h0 ++ [(role, content)])%list).
  { unfold py_tail. rewrite Z.opp_involutive.
    destruct (Z.ltb_spec (Z.of_nat k) 0); [lia|].
    destruct (Nat.le_gt_cases k (length (h0 ++ [(role, content)])%list)).
    - f_equal. lia.
    - rewrite !drop_ge by lia. reflexivity. }
  rewrite Hd. split; [reflexivity|].
  intros Hl. apply drop_ge. rewrite length_app. simpl. lia.
Qed.

Lemma append_history_negative_cap_witness :
  let st := mkAgent [("user", "hello")] (-3) ∅ "gpt-oss:120b-cloud" "qwen3-coder:480b-cloud"
              None None true in
  (0 < 3)%nat /\ st.(max_history) = (- Z.of_nat 3)%Z /\
  ((snd (_append_history "assistant" "hi" st)).(chat_history)
     = drop 3 (st.(chat_history) ++ [("assistant", "hi")])%list /\
   ((length st.(chat_history) < 3)%nat ->
    (snd (_append_history "assistant" "hi" st)).(chat_history) = [])).
Proof.
  cbv zeta. split; [lia|]. split; [reflexivity|].
  apply append_history_negative_cap; [lia | reflexivity].
Defined.

(** ** Stripping *)

Lemma rev_str_app (a b : string) :
  PyStr.rev_str (a +:+ b) = PyStr.rev_str b +:+ PyStr.rev_str a.
Proof.
  induction a as [|x a IH]; simpl.
  - rewrite sapp_nil_r. reflexivity.
  - rewrite IH, sapp_assoc. reflexivity.
Qed.

Lemma rev_str_involutive (s : string) : PyStr.rev_str (PyStr.rev_str s) = s.
Proof. induction s as [|x s IH]; simpl; [reflexivity|]. rewrite rev_str_app, IH. reflexivity. Qed.

Lemma rev_str_length (s : string) : String.length (PyStr.rev_str s) = String.length s.
Proof. induction s as [|x s IH]; simpl; [reflexivity|]. rewrite slen_app, IH. simpl. lia. Qed.

Lemma lstrip_length (s : string) : (String.length (PyStr.lstrip s) <= String.length s)%nat.
Proof. induction s as [|x s IH]; simpl; [lia|]. destruct (PyStr.is_space x); simpl; lia. Qed.

Lemma lstrip_idem (s : string) : PyStr.lstrip (PyStr.lstrip s) = PyStr.lstrip s.
Proof.
  induction s as [|x s IH]; simpl; [reflexivity|].
  destruct (PyStr.is_space x) eqn:H; [exact IH|]. simpl. rewrite H. reflexivity.
Qed.

Lemma lstrip_head (c : ascii) (r : string) :
  PyStr.lstrip (String c r) = String c r -> PyStr.is_space c = false.
Proof.
  simpl. destruct (PyStr.is_space c) eqn:H; [|reflexivity].
  intros E. pose proof (lstrip_length r) as L. rewrite E in L. simpl in L. lia.
Qed.

Lemma lstrip_len_eq (s : string) :
  String.length (PyStr.lstrip s) = String.length s -> PyStr.lstrip s = s.
Proof.
  induction s as [|x s IH]; simpl; [reflexivity|].
  destruct (PyStr.is_space x); [|reflexivity].
  intros H. pose proof (lstrip_length s). lia.
Qed.

Lemma all_space_app (a b : string) : all_space (a +:+ b) = all_space a && all_space b.
Proof. induction a as [|x a IH]; simpl; [reflexivity|]. rewrite IH, andb_assoc. reflexivity. Qed.

Lemma all_space_rev (s : string) : all_space (PyStr.rev_str s) = all_space s.
Proof.
  induction s as [|x s IH]; simpl; [reflexivity|].
  rewrite all_space_app, IH. simpl. rewrite andb_true_r, andb_comm. reflexivity.
Qed.

Lemma lstrip_all_space (a b : string) :
  all_space a = true -> PyStr.lstrip (a +:+ b) = PyStr.lstrip b.
Proof.
  induction a as [|x a IH]; simpl; [reflexivity|].
  intros H. apply andb_true_iff in H as [Hx Ha]. rewrite Hx. apply IH, Ha.
Qed.

Lemma lstrip_empty (s : string) : PyStr.lstrip s = "" -> all_space s = true.
Proof.
  induction s as [|x s IH]; simpl; [reflexivity|].
  destruct (PyStr.is_space x); simpl; [exact IH | discriminate].
Qed.

Lemma strip_empty (s : string) : PyStr.strip s = "" -> all_space s = true.
Proof.
  unfold PyStr.strip, PyStr.rstrip. intros H.
  assert (H1 : PyStr.lstrip (PyStr.rev_str (PyStr.lstrip s)) = "").
  { rewrite <- (rev_str_involutive (PyStr.lstrip (PyStr.rev_str (PyStr.lstrip s)))), H.
    reflexivity. }
  apply lstrip_empty in H1. rewrite all_space_rev in H1.
  destruct (PyStr.lstrip s) as [|c r] eqn:E.
  - apply lstrip_empty. exact E.
  - pose proof (lstrip_idem s) as I. rewrite E in I. apply lstrip_head in I.
    simpl in H1. rewrite I in H1. discriminate.
Qed.

(** A stripped text ends in no whitespace. *)
Lemma strip_trailing (u x y : string) :
  PyStr.strip u = x +:+ y -> all_space y = true -> y = "".
Proof.
  unfold PyStr.strip, PyStr.rstrip. intros H Hy.
  set (L := PyStr.lstrip (PyStr.rev_str (PyStr.lstrip u))) in H.
  assert (HL : PyStr.lstrip L = L) by (unfold L; apply lstrip_idem).
  assert (HL2 : L = PyStr.rev_str y +:+ PyStr.rev_str x).
  { rewrite <- (rev_str_involutive L), H, rev_str_app. reflexivity. }
  rewrite HL2, lstrip_all_space in HL by (rewrite all_space_rev; exact Hy).
  pose proof (lstrip_length (PyStr.rev_str x)) as Hl.
  rewrite HL, slen_app, !rev_str_length in Hl.
  destruct y; [reflexivity|]. simpl in Hl. lia.
Qed.

Lemma lower_char_space (c : ascii) : PyStr.lower_char c = " "%char -> c = " "%char.
Proof.
  destruct c as [[] [] [] [] [] [] [] []]; vm_compute; intros H;
    first [reflexivity | discriminate H].
Qed.

Lemma lower_app (a b : string) : PyStr.lower (a +:+ b) = PyStr.lower a +:+ PyStr.lower b.
Proof. induction a as [|x a IH]; simpl; [reflexivity|]. rewrite IH. reflexivity. Qed.

Lemma lower_prefix_space (p s : string) :
  PyStr.startswith (PyStr.lower s) (p +:+ " ") = true ->
  exists s1 s2, s = s1 +:+ String " " s2 /\ String.length s1 = String.length p.
Proof.
  unfold PyStr.startswith. revert s. induction p as [|a p IH]; intros s H.
  - destruct s as [|c s]; [vm_compute in H; discriminate|].
    change (String.prefix (String " " "") (String (PyStr.lower_char c) (PyStr.lower s)) = true)
      in H.
    rewrite prefix_cons in H.
    destruct (ascii_dec " " (PyStr.lower_char c)) as [E|]; [|discriminate].
    exists "", s. rewrite (lower_char_space c (eq_sym E)). split; reflexivity.
  - destruct s as [|c s]; [vm_compute in H; discriminate|].
    change (String.prefix (String a (p +:+ " ")) (String (PyStr.lower_char c) (PyStr.lower s))
            = true) in H.
    rewrite prefix_cons in H. destruct (ascii_dec a (PyStr.lower_char c)); [|discriminate].
    destruct (IH s H) as (s1 & s2 & -> & Hl).
    exists (String c s1), s2. split; [reflexivity|]. simpl. lia.
Qed.

Lemma slash_arg_nonblank (u p : string) :
  PyStr.startswith (PyStr.lower (PyStr.strip u)) (p +:+ " ") = true ->
  PyStr.truthy (PyStr.strip (PyStr.drop (S (String.length p)) (PyStr.strip u))) = true.
Proof.
  intros H. destruct (lower_prefix_space p _ H) as (s1 & s2 & Hs & Hl).
  rewrite Hs.
  replace (S (String.length p)) with (String.length (s1 +:+ " ")) by (rewrite slen_app; simpl; lia).
  replace (s1 +:+ String " " s2) with ((s1 +:+ " ") +:+ s2) by (rewrite sapp_assoc; reflexivity).
  rewrite sdrop_prefix.
  destruct (PyStr.strip s2) eqn:E; [|reflexivity].
  apply strip_empty in E.
  assert (Hc : String " " s2 = "").
  { apply (strip_trailing u s1); [exact Hs|]. simpl. exact E. }
  discriminate Hc.
Qed.

(** X6: the argument of a "/model ", "/planner " or "/run " request is
    never blank, because the input is stripped before the prefix test; so
    the usage replies for a blank argument ([set_model],
    [set_planner_model] and the "/run" branch) are never produced there. *)
Theorem slash_arguments_nonblank (u : string) :
  (PyStr.startswith (PyStr.lower (PyStr.strip u)) "/model " = true ->
   PyStr.truthy (PyStr.strip (PyStr.drop 7%nat (PyStr.strip u))) = true) /\
  (PyStr.startswith (PyStr.lower (PyStr.strip u)) "/planner " = true ->
   PyStr.truthy (PyStr.strip (PyStr.drop 9%nat (PyStr.strip u))) = true) /\
  (PyStr.startswith (PyStr.lower (PyStr.strip u)) "/run " = true ->
   PyStr.truthy (run_arg u) = true).
Proof.
  split; [|split]; intros H;
    [apply (slash_arg_nonblank u "/model") | apply (slash_arg_nonblank u "/planner")
    | apply (slash_arg_nonblank u "/run")]; exact H.
Qed.

(** ** Switching models through requests *)

Lemma stripped_fix (s : string) :
  PyStr.strip s = s -> PyStr.lstrip s = s /\ PyStr.lstrip (PyStr.rev_str s) = PyStr.rev_str s.
Proof.
  unfold PyStr.strip, PyStr.rstrip. intros H.
  assert (HL : PyStr.lstrip s = s).
  { apply lstrip_len_eq. apply Nat.le_antisymm; [apply lstrip_length|].
    rewrite <- H at 1. rewrite rev_str_length.
    eapply Nat.le_trans; [apply lstrip_length|]. rewrite rev_str_length. lia. }
  split; [exact HL|]. rewrite HL in H.
  apply (f_equal PyStr.rev_str) in H. rewrite rev_str_involutive in H. exact H.
Qed.

Lemma lstrip_app_fix (a b : string) :
  PyStr.lstrip a = a -> a <> "" -> PyStr.lstrip (a +:+ b) = a +:+ b.
Proof.
  destruct a as [|c r]; [congruence|]. intros H _. apply lstrip_head in H.
  simpl. rewrite H. reflexivity.
Qed.

Lemma strip_prefix_stripped (c : ascii) (p name : string) :
  PyStr.is_space c = false -> PyStr.strip name = name -> name <> "" ->
  PyStr.strip (String c p +:+ name) = String c p +:+ name.
Proof.
  intros Hc Hs Hn. destruct (stripped_fix name Hs) as [_ Hr].
  unfold PyStr.strip, PyStr.rstrip.
  replace (PyStr.lstrip (String c p +:+ name)) with (String c p +:+ name)
    by (simpl; rewrite Hc; reflexivity).
  rewrite rev_str_app, lstrip_app_fix; [| exact Hr |].
  - rewrite rev_str_app, !rev_str_involutive. reflexivity.
  - intros E. apply (f_equal PyStr.rev_str) in E. rewrite rev_str_involutive in E.
    simpl in E. congruence.
Qed.

(** X7: "/model NAME" with a stripped, non-blank name that is not
    "show", "current" or "list" (in any case) switches the main model,
    persists it in [memory["model_name"]], answers "✅ Model set to:
    NAME", and a following "/model show" reports NAME. *)
Theorem model_switch_roundtrip (E : env) (st : agent) (name : string) :
  (forall st', E.(init_llm) st' = Ok tt) ->
  PyStr.strip name = name -> PyStr.truthy name = true ->
  String.eqb (PyStr.lower name) "show" = false ->
  String.eqb (PyStr.lower name) "current" = false ->
  String.eqb (PyStr.lower name) "list" = false ->
  let '(r, st1) := process_request E ("/model " +:+ name) st in
  r = Ok ("✅ Model set to: " +:+ name) /\
  st1.(model_name) = name /\
  st1.(memory) !! "model_name" = Some (JStr name) /\
  fst (process_request E "/model show" st1) = Ok ("Current model: " +:+ name).
Proof.
  intros HI Hs Ht H1 H2 H3.
  assert (Hn : name <> "") by (intros ->; discriminate).
  assert (HS : PyStr.strip ("/model " +:+ name) = "/model " +:+ name)
    by (apply (strip_prefix_stripped "/"%char "model "); [reflexivity | exact Hs | exact Hn]).
  assert (E1 : String.eqb ("/model " +:+ PyStr.lower name) "/models" = false) by reflexivity.
  assert (E2 : String.eqb ("/model " +:+ PyStr.lower name) "/model list"
               = String.eqb (PyStr.lower name) "list") by reflexivity.
  assert (E3 : PyStr.startswith ("/model " +:+ PyStr.lower name) "/model " = true)
    by apply prefix_app.
  assert (E4 : PyStr.drop 7 ("/model " +:+ name) = name) by reflexivity.
  unfold process_request, request_body. cbv zeta.
  rewrite HS, lower_app. change (PyStr.lower "/model ") with "/model ".
  rewrite E1, E2, H3, E3, E4, Hs, H1, H2. cbn [orb negb].
  unfold set_model. rewrite Hs, Ht. cbn [negb].
  unfold try_except, bind, ret, get, modify, lift, reply, _append_history, remember,
    save_memory.
  simpl. rewrite HI. simpl.
  split; [reflexivity|]. split; [reflexivity|]. split.
  - rewrite !lookup_insert_ne by discriminate. rewrite lookup_insert_eq. reflexivity.
  - reflexivity.
Qed.

Lemma model_switch_roundtrip_witness :
  (forall st', (env_fixed "p" "a").(init_llm) st' = Ok tt) /\
  PyStr.strip "deepseek-v3.1:671b-cloud" = "deepseek-v3.1:671b-cloud" /\
  PyStr.truthy "deepseek-v3.1:671b-cloud" = true /\
  String.eqb (PyStr.lower "deepseek-v3.1:671b-cloud") "show" = false /\
  String.eqb (PyStr.lower "deepseek-v3.1:671b-cloud") "current" = false /\
  String.eqb (PyStr.lower "deepseek-v3.1:671b-cloud") "list" = false /\
  (let '(r, st1) := process_request (env_fixed "p" "a") ("/model " +:+ "deepseek-v3.1:671b-cloud") st0 in
   r = Ok ("✅ Model set to: " +:+ "deepseek-v3.1:671b-cloud") /\
   st1.(model_name) = "deepseek-v3.1:671b-cloud" /\
   st1.(memory) !! "model_name" = Some (JStr "deepseek-v3.1:671b-cloud") /\
   fst (process_request (env_fixed "p" "a") "/model show" st1)
   = Ok ("Current model: " +:+ "deepseek-v3.1:671b-cloud")).
Proof.
  split; [intros; reflexivity|]. do 5 (split; [reflexivity|]).
  apply model_switch_roundtrip; [intros; reflexivity | reflexivity ..].
Defined.

(** X8: "/planner NAME" with a stripped, non-blank name other than
    "show" (in any case) switches the planner model, persists it in
    [memory["planner_model_name"]], and a following "/planner" reports
    NAME; unlike "/model", the word "current" is taken as a model name. *)
Theorem planner_switch_roundtrip (E : env) (st : agent) (name : string) :
  (forall st', E.(init_llm) st' = Ok tt) ->
  PyStr.strip name = name -> PyStr.truthy name = true ->
  String.eqb (PyStr.lower name) "show" = false ->
  let '(r, st1) := process_request E ("/planner " +:+ name) st in
  r = Ok ("✅ Planner model set to: " +:+ name) /\
  st1.(planner_model_name) = name /\
  st1.(memory) !! "planner_model_name" = Some (JStr name) /\
  fst (process_request E "/planner" st1) = Ok ("Planner model: " +:+ name).
Proof.
  intros HI Hs Ht H1.
  assert (Hn : name <> "") by (intros ->; discriminate).
  assert (HS : PyStr.strip ("/planner " +:+ name) = "/planner " +:+ name)
    by (apply (strip_prefix_stripped "/"%char "planner "); [reflexivity | exact Hs | exact Hn]).
  assert (E1 : String.eqb ("/planner " +:+ PyStr.lower name) "/models" = false) by reflexivity.
  assert (E2 : String.eqb ("/planner " +:+ PyStr.lower name) "/model list" = false)
    by reflexivity.
  assert (E3 : PyStr.startswith ("/planner " +:+ PyStr.lower name) "/model " = false)
    by reflexivity.
  assert (E4 : String.eqb ("/planner " +:+ PyStr.lower name) "/planner" = false)
    by reflexivity.
  assert (E5 : String.eqb ("/planner " +:+ PyStr.lower name) "/planner show"
               = String.eqb (PyStr.lower name) "show") by reflexivity.
  assert (E6 : PyStr.startswith ("/planner " +:+ PyStr.lower name) "/planner " = true)
    by apply prefix_app.
  assert (E7 : PyStr.drop 9 ("/planner " +:+ name) = name) by reflexivity.
  unfold process_request, request_body. cbv zeta.
  rewrite HS, lower_app. change (PyStr.lower "/planner ") with "/planner ".
  rewrite E1, E2, E3, E4, E5, H1, E6, E7, Hs. cbn [orb negb].
  unfold set_planner_model. rewrite Hs, Ht. cbn [negb].
  unfold try_except, bind, ret, get, modify, lift, reply, _append_history, remember,
    save_memory.
  simpl. rewrite HI. simpl.
  split; [reflexivity|]. split; [reflexivity|]. split.
  - rewrite !lookup_insert_ne by discriminate. rewrite lookup_insert_eq. reflexivity.
  - reflexivity.
Qed.

Lemma planner_switch_roundtrip_witness :
  (forall st', (env_fixed "p" "a").(init_llm) st' = Ok tt) /\
  PyStr.strip "current" = "current" /\ PyStr.truthy "current" = true /\
  String.eqb (PyStr.lower "current") "show" = false /\
  (let '(r, st1) := process_request (env_fixed "p" "a") ("/planner " +:+ "current") st0 in
   r = Ok ("✅ Planner model set to: " +:+ "current") /\
   st1.(planner_model_name) = "current" /\
   st1.(memory) !! "planner_model_name" = Some (JStr "current") /\
   fst (process_request (env_fixed "p" "a") "/planner" st1) = Ok ("Planner model: " +:+ "current")).
Proof.
  split; [intros; reflexivity|]. do 3 (split; [reflexivity|]).
  apply planner_switch_roundtrip; [intros; reflexivity | reflexivity ..].
Defined.

(** ** The history cap across requests *)

Lemma preserves_ret {A} (P : agent -> Prop) (a : A) : preserves P (ret a).
Proof. intros st H. exact H. Qed.

Lemma preserves_raise {A} (P : agent -> Prop) (e : exn) : preserves P (@raise A e).
Proof. intros st H. exact H. Qed.

Lemma preserves_get (P : agent -> Prop) : preserves P get.
Proof. intros st H. exact H. Qed.

Lemma preserves_lift {A} (P : agent -> Prop) (r : res A) : preserves P (lift r).
Proof. intros st H. exact H. Qed.

Lemma preserves_bind {A B} (P : agent -> Prop) (m : M A) (k : A -> M B) :
  preserves P m -> (forall a, preserves P (k a)) -> preserves P (bind m k).
Proof.
  intros Hm Hk st H. unfold bind. specialize (Hm st H).
  destruct (m st) as [[a|e] st']; [apply Hk; exact Hm | exact Hm].
Qed.

Lemma preserves_try {A} (P : agent -> Prop) (m : M A) (h : exn -> M A) :
  preserves P m -> (forall e, preserves P (h e)) -> preserves P (try_except m h).
Proof.
  intros Hm Hh st H. unfold try_except. specialize (Hm st H).
  destruct (m st) as [[a|e] st']; [exact Hm|].
  destruct (exn_cls e); [apply Hh; exact Hm | exact Hm].
Qed.

Lemma capped_modify (f : agent -> agent) :
  (forall st, (f st).(chat_history) = st.(chat_history) /\
              (f st).(max_history) = st.(max_history)) ->
  preserves history_capped (modify f).
Proof.
  intros Hf st [Hn Hl]. unfold history_capped; simpl. destruct (Hf st) as [-> ->]. split; assumption.
Qed.

Lemma capped_append (role content : string) :
  preserves history_capped (_append_history role content).
Proof.
  intros st [Hn Hl].
  destruct (append_history_capped_pos st role content Hn) as [H _].
  split; destruct st; exact Hn || exact H.
Qed.

Ltac capped_tac HS :=
  repeat (cbv zeta; match goal with
  | |- preserves _ (bind _ _) => apply preserves_bind; [|intros ?]
  | |- preserves _ (ret _) => apply preserves_ret
  | |- preserves _ get => apply preserves_get
  | |- preserves _ (lift _) => apply preserves_lift
  | |- preserves _ (raise _) => apply preserves_raise
  | |- preserves _ (try_except _ _) => apply preserves_try; [|intros ?]
  | |- preserves _ (_append_history _ _) => apply capped_append
  | |- preserves _ (modify _) => apply capped_modify; intros ?; split; reflexivity
  | |- preserves _ (slash_helper _ _) => apply HS
  | |- preserves _ (match _ with _ => _ end) => case_match
  | |- preserves _ _ =>
      progress unfold reply, remember, save_memory, set_model,
        set_planner_model, _confirm_command, _cancel_command, _queue_command,
        planner_path, try_plan, normal_response, _execute_plan, iter_actions,
        join_outputs, exec_action
  end).

Lemma exec_actions_capped (E : env) (l : list json) (acc : list json) :
  preserves history_capped (exec_actions E l acc).
Proof.
  revert acc. induction l as [|a l IH]; intros acc; simpl.
  - apply preserves_ret.
  - apply preserves_bind; [|intros; apply IH]. capped_tac ltac:(fail).
Qed.

(** X9: with a positive [max_history], the history stays within the cap
    over any sequence of requests, whatever the requests return or raise,
    provided the slash-command helpers outside the model keep it. *)
Theorem requests_keep_history_capped (E : env) :
  (forall u, preserves history_capped (E.(slash_helper) u)) ->
  forall us st, history_capped st -> history_capped (snd (run_requests E us st)).
Proof.
  intros HS us. induction us as [|u us IH]; intros st H; simpl; [exact H|].
  assert (Hp : history_capped (snd (process_request E u st))).
  { unfold process_request. revert st H.
    change (preserves history_capped
              (try_except (request_body E u) (fun e => ret (msg_error_prefix +:+ exn_msg e)))).
    apply preserves_try; [|intros; apply preserves_ret].
    unfold request_body. capped_tac HS.
    all: apply exec_actions_capped. }
  destruct (process_request E u st) as [r st'] eqn:Hq.
  destruct (run_requests E us st') as [rs st''] eqn:Hr. simpl in *.
  specialize (IH st' Hp). rewrite Hr in IH. exact IH.
Qed.

Lemma requests_keep_history_capped_witness :
  (forall u, preserves history_capped ((env_fixed "p" "a").(slash_helper) u)) /\
  history_capped st0 /\
  history_capped (snd (run_requests (env_fixed "p" "a") ["hello"; "/run rm x"; "/confirm"] st0)).
Proof.
  assert (HS : forall u, preserves history_capped ((env_fixed "p" "a").(slash_helper) u))
    by (intros; apply preserves_ret).
  assert (H0 : history_capped st0) by (split; simpl; lia).
  split; [exact HS|]. split; [exact H0|].
  apply requests_keep_history_capped; [exact HS | exact H0].
Defined.

(** ** Plans of replies *)

Lemma exec_reply_actions (E : env) (acts : list json) (ts : list string)
    (acc : list json) (st : agent) :
  Forall2 (fun a t => is_reply_text a t = true /\ PyStr.truthy t = true) acts ts ->
  exec_actions E acts acc st = (Ok (acc ++ map JStr ts)%list, st).
Proof.
  intros Hts. revert acc. induction Hts as [|a t acts ts [Ha Ht] _ IH]; intros acc; simpl.
  - rewrite app_nil_r. reflexivity.
  - unfold bind. rewrite (exec_reply_text E a t acc st Ha Ht). rewrite IH, <- app_assoc.
    reflexivity.
Qed.

Lemma filter_truthy_all (ts : list string) :
  Forall (fun t => PyStr.truthy t = true) ts -> List.filter PyStr.truthy ts = ts.
Proof. induction 1 as [|t ts Ht _ IH]; simpl; [reflexivity|]. rewrite Ht, IH. reflexivity. Qed.

Lemma Forall2_truthy (acts : list json) (ts : list string) :
  Forall2 (fun a t => is_reply_text a t = true /\ PyStr.truthy t = true) acts ts ->
  Forall (fun t => PyStr.truthy t = true) ts.
Proof. induction 1 as [|a t acts ts [_ Ht] _ IH]; constructor; assumption. Qed.

(** X10: a plan whose actions are all replies with non-empty texts (in
    any key order, with any further keys) returns those texts joined by
    newlines, in order, without touching the session or any tool; a plan
    without "actions" returns "". *)
Theorem reply_only_plan (E : env) (st : agent) :
  (forall kv acts ts, obj_get kv "actions" = Some (JArr acts) ->
     Forall2 (fun a t => is_reply_text a t = true /\ PyStr.truthy t = true) acts ts ->
     _execute_plan E (JObj kv) st = (Ok (PyStr.join nl ts), st)) /\
  (forall kv, obj_get kv "actions" = None -> _execute_plan E (JObj kv) st = (Ok "", st)).
Proof.
  split.
  - intros kv acts ts Hkv Hts. unfold _execute_plan, obj_get_default. rewrite Hkv.
    simpl iter_actions. unfold bind. rewrite (exec_reply_actions E acts ts [] st Hts). simpl.
    unfold join_outputs. rewrite filter_keep_map, all_str_map.
    rewrite filter_truthy_all by exact (Forall2_truthy acts ts Hts). reflexivity.
  - intros kv Hkv. unfold _execute_plan, obj_get_default. rewrite Hkv. reflexivity.
Qed.

Lemma reply_only_plan_witness :
  _execute_plan (env_fixed "p" "a")
    (JObj [("type", JStr "plan");
           ("actions", JArr [JObj [("text", JStr "Done."); ("tool", JStr "reply")];
                             JObj [("tool", JStr "reply"); ("tone", JStr "warm");
                                   ("text", JStr "Bye.")]])]) st0
  = (Ok (PyStr.join nl ["Done."; "Bye."]), st0).
Proof.
  apply (proj1 (reply_only_plan (env_fixed "p" "a") st0)
           _ [JObj [("text", JStr "Done."); ("tool", JStr "reply")];
              JObj [("tool", JStr "reply"); ("tone", JStr "warm"); ("text", JStr "Bye.")]]);
    [reflexivity|].
  repeat constructor.
Defined.

(* ------------------------------------------------------------------ *)
(** ** The static file server *)

Lemma reply_result (out : string) (st : agent) : fst (reply out st) = Ok out.
Proof. reflexivity. Qed.

Lemma reply_memory_other (out key : string) (st : agent) :
  key <> "chat_history" -> memory (snd (reply out st)) !! key = memory st !! key.
Proof.
  intros Hk. unfold reply, _append_history, save_memory, bind, modify, ret; simpl.
  rewrite lookup_insert_ne by congruence. reflexivity.
Qed.

Lemma serve_branch_stop (O : os_env) (s : serve_state) :
  serve_branch O "/serve stop" s = sbind (_serve_stop O) (fun out => on_agent (reply out)) s.
Proof. reflexivity. Qed.

Lemma serve_branch_bare (O : os_env) (s : serve_state) :
  serve_branch O "/serve" s =
  (let mem := s.(sv_agent).(memory) in
   let folder := match mem !! "last_served_folder" with
                 | Some v => if jtruthy v then v else JStr "restaurant-site"
                 | None => JStr "restaurant-site"
                 end in
   sbind (fun s => (py_int_json (match mem !! "last_served_port" with
                                 | Some v => if jtruthy v then v else JNum 8000
                                 | None => JNum 8000
                                 end), s))
         (fun port => sbind (_serve_start O folder port) (fun out => on_agent (reply out))) s).
Proof. reflexivity. Qed.

Lemma serve_start_ok (O : os_env) (f : string) (port p : Z) (s : serve_state) :
  strip_path f = f -> PyStr.truthy f = true -> O.(isdir) f = true ->
  O.(popen) f port = Ok p ->
  match s.(server_process) with Some q => O.(poll_running) q = false | None => True end ->
  _serve_start O (JStr f) port s =
  (Ok (serving_msg f port),
   mkServe (snd (save_memory (set_memory (<["last_served_port" := JNum port]>
                  (<["last_served_folder" := JStr f]> s.(sv_agent).(memory))) s.(sv_agent))))
           (Some p)).
Proof.
  intros Hn Ht Hd Hp Hs. destruct s as [a sp].
  unfold _serve_start. cbn [jtruthy]. rewrite Ht, Hn, Ht, Hd. cbn [negb].
  unfold sbind, sget. cbn [server_process] in *.
  replace (match sp with Some q => poll_running O q | None => false end) with false
    by (destruct sp; [symmetry; exact Hs | reflexivity]).
  rewrite Hp. reflexivity.
Qed.

Lemma serve_stop_running (O : os_env) (s : serve_state) (p : Z) :
  s.(server_process) = Some p -> O.(poll_running) p = true -> O.(terminate_wait) p = Ok tt ->
  _serve_stop O s = (Ok msg_server_stopped, mkServe s.(sv_agent) None).
Proof.
  intros Hs Hr Hw. unfold _serve_stop, sbind, sget. rewrite Hs, Hr, Hw. reflexivity.
Qed.

(** X11: [_serve_stop] always forgets the server handle and touches nothing
    else of the session; it reports "No server" exactly when there was no
    running process, and otherwise either reports the stop or propagates an
    exception that is not an [Exception] (every [Exception] of [terminate],
    [wait] and [kill] is swallowed). *)
Theorem serve_stop_clears (O : os_env) (s : serve_state) :
  let '(r, s') := _serve_stop O s in
  s'.(server_process) = None /\ s'.(sv_agent) = s.(sv_agent) /\
  (r = Ok msg_server_stopped \/ r = Ok msg_no_server \/
   exists e, r = Raise e /\ exn_cls e = PyBaseOnly) /\
  (r = Ok msg_no_server <->
   match s.(server_process) with Some p => O.(poll_running) p = false | None => True end).
Proof.
  destruct s as [a [p|]]; unfold _serve_stop, sbind, sget, set_server, sret; cbn.
  - destruct (poll_running O p) eqn:Hr; cbn.
    + assert (Hne : Ok msg_server_stopped <> Ok msg_no_server)
        by (unfold msg_server_stopped, msg_no_server; discriminate).
      destruct (terminate_wait O p) as [u|e]; cbn.
      * repeat split; auto; intros H; [congruence|discriminate].
      * destruct (exn_cls e) eqn:Hc; cbn.
        -- destruct (kill O p) as [u|e']; cbn.
           ++ repeat split; auto; intros H; [congruence|discriminate].
           ++ destruct (exn_cls e') eqn:Hc'; cbn.
              ** repeat split; auto; intros H; [congruence|discriminate].
              ** repeat split; eauto; intros H; discriminate.
        -- repeat split; eauto; intros H; discriminate.
    + repeat split; auto.
  - repeat split; auto.
Qed.

(** X12: while a started server is still running, [_serve_start] leaves the
    whole state as it was, and its outcome does not depend on how a process
    would be launched: no second server is started. *)
Theorem serve_start_keeps_running_server (O O' : os_env) (folder : json) (port p : Z)
    (s : serve_state) :
  s.(server_process) = Some p -> O.(poll_running) p = true ->
  O'.(isdir) = O.(isdir) -> O'.(poll_running) = O.(poll_running) ->
  snd (_serve_start O folder port s) = s /\
  _serve_start O' folder port s = _serve_start O folder port s.
Proof.
  intros Hs Hr Hd Hpr. unfold _serve_start. rewrite Hd, Hpr.
  destruct (if jtruthy folder then folder else JStr "") as [| | | f0 | |];
    try (split; reflexivity).
  destruct (negb (PyStr.truthy (strip_path f0))); [split; reflexivity|].
  destruct (negb (isdir O (strip_path f0))); [split; reflexivity|].
  unfold sbind, sget. rewrite Hs, Hr. split; reflexivity.
Qed.

Lemma serve_start_keeps_running_server_witness :
  snd (_serve_start os_demo (JStr "site") 8080 (mkServe st0 (Some 7%Z))) = mkServe st0 (Some 7%Z) /\
  _serve_start os_down (JStr "site") 8080 (mkServe st0 (Some 7%Z))
  = _serve_start os_demo (JStr "site") 8080 (mkServe st0 (Some 7%Z)).
Proof.
  apply (serve_start_keeps_running_server os_demo os_down (JStr "site") 8080 7
           (mkServe st0 (Some 7%Z))); reflexivity.
Defined.

(** X13: starting a server on a folder and port records them in memory;
    after "/serve stop" the handle is gone, and a bare "/serve" starts the
    same site on the same port again. *)
Theorem serve_restart_same_site (O : os_env) (s : serve_state) (f : string) (port p : Z) :
  strip_path f = f -> PyStr.truthy f = true -> O.(isdir) f = true -> port <> 0%Z ->
  O.(popen) f port = Ok p -> O.(poll_running) p = true -> O.(terminate_wait) p = Ok tt ->
  match s.(server_process) with Some q => O.(poll_running) q = false | None => True end ->
  let '(r1, s1) := _serve_start O (JStr f) port s in
  r1 = Ok (serving_msg f port) /\ s1.(server_process) = Some p /\
  s1.(sv_agent).(memory) !! "last_served_folder" = Some (JStr f) /\
  s1.(sv_agent).(memory) !! "last_served_port" = Some (JNum port) /\
  let '(r2, s2) := serve_branch O "/serve stop" s1 in
  r2 = Ok msg_server_stopped /\ s2.(server_process) = None /\
  fst (serve_branch O "/serve" s2) = Ok (serving_msg f port).
Proof.
  intros Hn Ht Hd Hz Hp Hr Hw Hs.
  rewrite (serve_start_ok O f port p s Hn Ht Hd Hp Hs).
  set (a1 := snd (save_memory _)).
  assert (Hf : memory a1 !! "last_served_folder" = Some (JStr f)).
  { subst a1. unfold save_memory, modify; cbn.
    rewrite lookup_insert_ne by discriminate.
    rewrite lookup_insert_ne by discriminate. apply lookup_insert_eq. }
  assert (Hq : memory a1 !! "last_served_port" = Some (JNum port)).
  { subst a1. unfold save_memory, modify; cbn.
    rewrite lookup_insert_ne by discriminate. apply lookup_insert_eq. }
  do 4 (split; [assumption || reflexivity|]).
  rewrite serve_branch_stop. unfold sbind at 1.
  rewrite (serve_stop_running O (mkServe a1 (Some p)) p eq_refl Hr Hw).
  unfold on_agent; cbn [sv_agent server_process].
  destruct (reply msg_server_stopped a1) as [r2 a2] eqn:Ea2.
  pose proof (reply_result msg_server_stopped a1) as Hr2. rewrite Ea2 in Hr2. cbn in Hr2.
  assert (Hf2 : memory a2 !! "last_served_folder" = Some (JStr f)).
  { replace a2 with (snd (reply msg_server_stopped a1)) by (rewrite Ea2; reflexivity).
    rewrite reply_memory_other by discriminate. exact Hf. }
  assert (Hq2 : memory a2 !! "last_served_port" = Some (JNum port)).
  { replace a2 with (snd (reply msg_server_stopped a1)) by (rewrite Ea2; reflexivity).
    rewrite reply_memory_other by discriminate. exact Hq. }
  split; [exact Hr2|]. split; [reflexivity|].
  rewrite serve_branch_bare. cbn [sv_agent].
  cbn zeta. rewrite Hf2, Hq2. cbn [jtruthy]. rewrite Ht.
  replace (negb (port =? 0)%Z) with true by (symmetry; apply negb_true_iff, Z.eqb_neq; exact Hz).
  unfold sbind at 1; cbn [py_int_json].
  unfold sbind. rewrite (serve_start_ok O f port p (mkServe a2 None) Hn Ht Hd Hp I).
  reflexivity.
Qed.

Lemma serve_restart_same_site_witness :
  let '(r1, s1) := _serve_start os_demo (JStr "site") 8080 (mkServe st0 None) in
  r1 = Ok (serving_msg "site" 8080) /\ s1.(server_process) = Some 7%Z /\
  s1.(sv_agent).(memory) !! "last_served_folder" = Some (JStr "site") /\
  s1.(sv_agent).(memory) !! "last_served_port" = Some (JNum 8080) /\
  let '(r2, s2) := serve_branch os_demo "/serve stop" s1 in
  r2 = Ok msg_server_stopped /\ s2.(server_process) = None /\
  fst (serve_branch os_demo "/serve" s2) = Ok (serving_msg "site" 8080).
Proof.
  apply (serve_restart_same_site os_demo (mkServe st0 None) "site" 8080 7);
    try reflexivity; try discriminate; exact I.
Defined.

(* ------------------------------------------------------------------ *)
(** ** Queued commands *)

Ltac run_branches :=
  repeat match goal with
  | |- context [String.eqb ("/run " +:+ ?l) ?t] =>
      let h := fresh in
      assert (h : String.eqb ("/run " +:+ l) t = false) by reflexivity; rewrite h; clear h
  | |- context [String.prefix ?t ("/run " +:+ ?l)] =>
      let h := fresh in
      assert (h : String.prefix t ("/run " +:+ l) = false) by reflexivity; rewrite h; clear h
  end.

Lemma run_request_queues_exact (E : env) (st : agent) (cmd : string) :
  PyStr.strip cmd = cmd -> PyStr.truthy cmd = true -> _is_command_allowed cmd = false ->
  let '(r1, st1) := process_request E ("/run " +:+ cmd) st in
  r1 = fst (_queue_command cmd "Not in safe allowlist" st) /\
  st1.(pending_command) = Some cmd /\
  st1.(pending_command_reason) = Some "Not in safe allowlist".
Proof.
  intros Hs Ht Ha.
  assert (Hn : cmd <> "") by (intros ->; discriminate).
  assert (HS : PyStr.strip ("/run " +:+ cmd) = "/run " +:+ cmd)
    by (apply (strip_prefix_stripped "/"%char "run "); [reflexivity | exact Hs | exact Hn]).
  assert (E3 : PyStr.startswith ("/run " +:+ PyStr.lower cmd) "/run " = true)
    by apply prefix_app.
  assert (E4 : PyStr.drop 5 ("/run " +:+ cmd) = cmd) by reflexivity.
  unfold process_request at 1, request_body at 1. cbv zeta.
  rewrite HS, lower_app. change (PyStr.lower "/run ") with "/run ".
  rewrite E3. unfold PyStr.startswith. run_branches. cbn [orb negb].
  rewrite E4, Hs, Ht, Ha. cbn [negb].
  unfold try_except, bind, ret, get, modify, lift, reply, _append_history, remember,
    save_memory, _queue_command.
  simpl. split; [reflexivity|]. split; reflexivity.
Qed.

Lemma confirm_request (E : env) (st : agent) (c out : string) :
  st.(pending_command) = Some c -> PyStr.truthy c = true ->
  E.(run_command) (JStr c) = Ok out ->
  let '(r, st') := process_request E "/confirm" st in
  r = Ok out /\ st'.(pending_command) = None.
Proof.
  intros Hp Ht Hrun.
  unfold process_request, request_body, _confirm_command, try_except, bind, ret, get,
    modify, lift, reply, _append_history, remember, save_memory.
  simpl. unfold no_pending; simpl. rewrite Hp. simpl. rewrite Ht. simpl. rewrite Hrun. simpl.
  split; reflexivity.
Qed.

Lemma cancel_request (E : env) (st : agent) (c : string) :
  st.(pending_command) = Some c -> PyStr.truthy c = true ->
  let '(r, st') := process_request E "/cancel" st in
  r = Ok msg_canceled /\ st'.(pending_command) = None.
Proof.
  intros Hp Ht.
  unfold process_request, request_body, _cancel_command, try_except, bind, ret, get,
    modify, lift, reply, _append_history, remember, save_memory.
  simpl. unfold no_pending; simpl. rewrite Hp. simpl. rewrite Ht. simpl.
  split; reflexivity.
Qed.

(** X14: "/run CMD" with a stripped, non-blank command outside the allow
    list queues exactly CMD; a following "/confirm" runs exactly CMD and
    answers with its output, a following "/cancel" discards it without
    running anything; both leave no command pending. *)
Theorem run_queue_confirm_cancel (E : env) (st : agent) (cmd out : string) :
  PyStr.strip cmd = cmd -> PyStr.truthy cmd = true -> _is_command_allowed cmd = false ->
  E.(run_command) (JStr cmd) = Ok out ->
  let '(r1, st1) := process_request E ("/run " +:+ cmd) st in
  r1 = fst (_queue_command cmd "Not in safe allowlist" st) /\
  st1.(pending_command) = Some cmd /\
  st1.(pending_command_reason) = Some "Not in safe allowlist" /\
  (let '(r2, st2) := process_request E "/confirm" st1 in
   r2 = Ok out /\ st2.(pending_command) = None) /\
  (let '(r3, st3) := process_request E "/cancel" st1 in
   r3 = Ok msg_canceled /\ st3.(pending_command) = None).
Proof.
  intros Hs Ht Ha Hrun.
  pose proof (run_request_queues_exact E st cmd Hs Ht Ha) as Hq.
  destruct (process_request E ("/run " +:+ cmd) st) as [r1 st1].
  destruct Hq as (Hr1 & Hp & Hpr).
  do 3 (split; [assumption|]).
  split; [apply (confirm_request E st1 cmd out Hp Ht Hrun) | apply (cancel_request E st1 cmd Hp Ht)].
Qed.

Lemma run_queue_confirm_cancel_witness :
  PyStr.strip "rm -rf build" = "rm -rf build" /\ PyStr.truthy "rm -rf build" = true /\
  _is_command_allowed "rm -rf build" = false /\
  (env_fixed "p" "a").(run_command) (JStr "rm -rf build") = Ok "📋 Command: rm -rf build" /\
  (let '(r1, st1) := process_request (env_fixed "p" "a") ("/run " +:+ "rm -rf build") st0 in
   r1 = fst (_queue_command "rm -rf build" "Not in safe allowlist" st0) /\
   st1.(pending_command) = Some "rm -rf build" /\
   st1.(pending_command_reason) = Some "Not in safe allowlist" /\
   (let '(r2, st2) := process_request (env_fixed "p" "a") "/confirm" st1 in
    r2 = Ok "📋 Command: rm -rf build" /\ st2.(pending_command) = None) /\
   (let '(r3, st3) := process_request (env_fixed "p" "a") "/cancel" st1 in
    r3 = Ok msg_canceled /\ st3.(pending_command) = None)).
Proof.
  do 4 (split; [reflexivity|]).
  apply run_queue_confirm_cancel; reflexivity.
Defined.

(* ------------------------------------------------------------------ *)
(** ** Commands in a plan *)

Lemma exec_run_command_arg (E : env) (a c : json) (o : string) (acc : list json) (st : agent) :
  run_command_arg a = Some c -> jtruthy c = true -> E.(run_command) c = Ok o ->
  exec_action E a acc st = (Ok (acc ++ [JStr o])%list, st).
Proof.
  destruct a as [| | | | |kv]; try discriminate. simpl.
  intros H Hc Hr.
  destruct (is_str_lit (obj_get kv "tool") "run_command") eqn:Ht; [|discriminate].
  injection H as <-. unfold exec_action.
  destruct (is_str_lit (obj_get kv "tool") "create_file") eqn:H1.
  { destruct (obj_get kv "tool") as [[| | |s| |]|]; try discriminate.
    simpl in *. apply String.eqb_eq in H1, Ht. congruence. }
  rewrite Hc. simpl. unfold bind, lift. rewrite Hr. reflexivity.
Qed.

Lemma exec_run_actions (E : env) (out : json -> string) (acts cmds : list json)
    (acc : list json) (st : agent) :
  Forall2 (fun a c => run_command_arg a = Some c /\ jtruthy c = true /\
                      E.(run_command) c = Ok (out c)) acts cmds ->
  exec_actions E acts acc st = (Ok (acc ++ map JStr (map out cmds))%list, st).
Proof.
  intros Hc. revert acc. induction Hc as [|a c acts cmds (Ha & Ht & Hr) _ IH]; intros acc; simpl.
  - rewrite app_nil_r. reflexivity.
  - unfold bind. rewrite (exec_run_command_arg E a c (out c) acc st Ha Ht Hr).
    rewrite IH, <- app_assoc. reflexivity.
Qed.

(** X15: the "run_command" actions of a plan are executed directly,
    without the allow-list check of "/run": every command is run in
    order, the non-empty outputs are joined by newlines, and nothing is
    queued or otherwise changed in the session. *)
Theorem plan_runs_commands_unchecked (E : env) (st : agent) (kv : list (string * json))
    (acts cmds : list json) (out : json -> string) :
  obj_get kv "actions" = Some (JArr acts) ->
  Forall2 (fun a c => run_command_arg a = Some c /\ jtruthy c = true /\
                      E.(run_command) c = Ok (out c)) acts cmds ->
  _execute_plan E (JObj kv) st
  = (Ok (PyStr.join nl (List.filter PyStr.truthy (map out cmds))), st).
Proof.
  intros Hkv Hc. unfold _execute_plan, obj_get_default. rewrite Hkv.
  simpl iter_actions. unfold bind. rewrite (exec_run_actions E out acts cmds [] st Hc). simpl.
  unfold join_outputs. rewrite filter_keep_map, all_str_map. reflexivity.
Qed.

Lemma plan_runs_commands_unchecked_witness :
  _is_command_allowed "rm -rf build" = false /\
  _is_command_allowed "del /q *.log" = false /\
  _execute_plan (env_fixed "p" "a")
    (JObj [("type", JStr "plan");
           ("actions", JArr [JObj [("tool", JStr "run_command"); ("command", JStr "rm -rf build")];
                             JObj [("why", JStr "cleanup"); ("command", JStr "del /q *.log");
                                   ("tool", JStr "run_command")]])]) st0
  = (Ok (PyStr.join nl ["📋 Command: rm -rf build"; "📋 Command: del /q *.log"]), st0).
Proof.
  split; [reflexivity|]. split; [reflexivity|].
  apply (plan_runs_commands_unchecked (env_fixed "p" "a") st0 _
           [JObj [("tool", JStr "run_command"); ("command", JStr "rm -rf build")];
            JObj [("why", JStr "cleanup"); ("command", JStr "del /q *.log");
                  ("tool", JStr "run_command")]]
           [JStr "rm -rf build"; JStr "del /q *.log"] (fun c => "📋 Command: " +:+ py_str c));
    [reflexivity|].
  repeat constructor.
Defined.

(* ------------------------------------------------------------------ *)
(** ** Folder listing *)

Lemma ascii_eqb_true (x y : ascii) : Ascii.eqb x y = true -> x = y.
Proof. apply Ascii.eqb_eq. Qed.

Lemma str_ltb_asym (a b : string) : str_ltb a b = true -> str_ltb b a = false.
Proof.
  revert b. induction a as [|x a IH]; intros [|y b] H; simpl in *; try discriminate;
    try reflexivity.
  destruct (Nat.ltb (nat_of_ascii x) (nat_of_ascii y)) eqn:Hxy.
  - apply Nat.ltb_lt in Hxy.
    assert (Hyx : Nat.ltb (nat_of_ascii y) (nat_of_ascii x) = false)
      by (apply Nat.ltb_ge; lia).
    rewrite Hyx.
    destruct (Ascii.eqb y x) eqn:E; [|reflexivity].
    apply ascii_eqb_true in E. subst. lia.
  - destruct (Ascii.eqb x y) eqn:E; [|discriminate].
    apply ascii_eqb_true in E. subst y.
    rewrite Nat.ltb_irrefl, Ascii.eqb_refl. apply IH, H.
Qed.

Lemma key_lt_asym (a b : string * bool) : key_lt a b = true -> key_lt b a = false.
Proof.
  destruct a as [n1 [|]], b as [n2 [|]]; unfold key_lt; simpl; try discriminate;
    try reflexivity; apply str_ltb_asym.
Qed.

Definition key_le (c1 c2 : string * bool) : bool := negb (key_lt c2 c1).

Lemma insert_key_perm (x : string * bool) (l : list (string * bool)) :
  Permutation (insert_key x l) (x :: l).
Proof.
  induction l as [|y l IH]; simpl; [reflexivity|].
  destruct (key_lt y x); [|reflexivity].
  etrans; [apply perm_skip, IH|]. apply perm_swap.
Qed.

Lemma sort_children_perm (l : list (string * bool)) : Permutation (sort_children l) l.
Proof.
  induction l as [|x l IH]; simpl; [reflexivity|].
  etrans; [apply insert_key_perm|]. apply perm_skip, IH.
Qed.

Lemma insert_key_sorted_cons (x y : string * bool) (ys : list (string * bool)) :
  key_le y x = true -> sorted_by key_le (y :: ys) = true ->
  sorted_by key_le (y :: insert_key x ys) = true.
Proof.
  revert y. induction ys as [|z zs IH]; intros y Hyx Hs; simpl in *.
  - rewrite Hyx. reflexivity.
  - apply andb_true_iff in Hs as [Hyz Hs].
    destruct (key_lt z x) eqn:Hzx.
    + rewrite Hyz. simpl. apply IH; [|exact Hs].
      unfold key_le. rewrite (key_lt_asym _ _ Hzx). reflexivity.
    + rewrite Hyx. simpl. unfold key_le at 1. rewrite Hzx. simpl. exact Hs.
Qed.

Lemma insert_key_sorted (x : string * bool) (l : list (string * bool)) :
  sorted_by key_le l = true -> sorted_by key_le (insert_key x l) = true.
Proof.
  destruct l as [|y ys]; intros Hs; simpl; [reflexivity|].
  destruct (key_lt y x) eqn:Hyx.
  - apply insert_key_sorted_cons; [|exact Hs].
    unfold key_le. rewrite (key_lt_asym _ _ Hyx). reflexivity.
  - change (key_le x y && sorted_by key_le (y :: ys) = true).
    unfold key_le at 1. rewrite Hyx, Hs. reflexivity.
Qed.

Lemma sort_children_sorted (l : list (string * bool)) :
  sorted_by key_le (sort_children l) = true.
Proof.
  induction l as [|x l IH]; simpl; [reflexivity|]. apply insert_key_sorted, IH.
Qed.

Lemma sorted_by_cons {A} (le : A -> A -> bool) (x : A) (l : list A) :
  sorted_by le (x :: l) = true <->
  sorted_by le l = true /\ (forall y l', l = y :: l' -> le x y = true).
Proof.
  destruct l as [|y l']; simpl.
  - split; [intros _; split; [reflexivity | discriminate] | reflexivity].
  - rewrite andb_true_iff. split.
    + intros [H1 H2]. split; [exact H2|]. intros z l'' [= <- <-]. exact H1.
    + intros [H1 H2]. split; [apply (H2 y l'); reflexivity | exact H1].
Qed.

Lemma sorted_split (l : list (string * bool)) :
  sorted_by key_le l = true ->
  exists ds fs, l = (ds ++ fs)%list /\ Forall (fun c => c.2 = true) ds /\
    Forall (fun c => c.2 = false) fs /\
    sorted_by key_le ds = true /\ sorted_by key_le fs = true.
Proof.
  induction l as [|x l IH]; intros Hs.
  - exists [], []. repeat split; constructor.
  - apply sorted_by_cons in Hs as [Hl Hhd].
    destruct (IH Hl) as (ds & fs & -> & Hd & Hf & Hsd & Hsf).
    destruct x as [n [|]].
    + exists ((n, true) :: ds), fs. repeat split; try assumption.
      * constructor; [reflexivity | exact Hd].
      * apply sorted_by_cons. split; [exact Hsd|].
        intros y l' ->. apply (Hhd y (l' ++ fs)%list). reflexivity.
    + destruct ds as [|d ds].
      * exists [], ((n, false) :: fs). repeat split; try assumption; try constructor.
        -- reflexivity.
        -- exact Hf.
        -- apply sorted_by_cons. split; [exact Hsf|].
           intros y l' ->. apply (Hhd y l'). reflexivity.
      * exfalso. inversion Hd as [|? ? Hd1 _]; subst.
        specialize (Hhd d (ds ++ fs)%list eq_refl).
        destruct d as [m b]; simpl in Hd1; subst b.
        unfold key_le, key_lt in Hhd. simpl in Hhd. discriminate.
Qed.

Lemma sorted_same_kind (b : bool) (l : list (string * bool)) :
  Forall (fun c => c.2 = b) l -> sorted_by key_le l = sorted_by name_le l.
Proof.
  induction 1 as [|x l Hx Hl IH]; [reflexivity|].
  destruct l as [|y l']; [reflexivity|].
  change (key_le x y && sorted_by key_le (y :: l') = name_le x y && sorted_by name_le (y :: l')).
  rewrite IH. f_equal.
  assert (Hy : y.2 = b) by (inversion Hl; assumption).
  destruct x as [n1 b1], y as [n2 b2]; simpl in Hx, Hy; subst b1 b2.
  unfold key_le, key_lt, name_le; simpl.
  destruct b; simpl; reflexivity.
Qed.

(** X16: a folder with children is listed under its resolved path with
    every directory before every file, each group in the order of the
    lowercased names, and every child exactly once. *)
Theorem list_files_dirs_first (F : fs_env) (folder : option string)
    (cs : list (string * bool)) :
  F.(fs_exists) (files_folder folder) = true -> F.(fs_is_dir) (files_folder folder) = true ->
  F.(fs_iterdir) (files_folder folder) = Ok cs -> cs <> [] ->
  exists ds fs,
    _list_files F folder
    = Ok (F.(fs_resolve) (files_folder folder) +:+ nl +:+ PyStr.join nl (map list_item (ds ++ fs)%list)) /\
    Permutation (ds ++ fs)%list cs /\
    Forall (fun c => c.2 = true) ds /\ Forall (fun c => c.2 = false) fs /\
    sorted_by name_le ds = true /\ sorted_by name_le fs = true.
Proof.
  intros He Hd Hi Hne.
  destruct (sorted_split _ (sort_children_sorted cs)) as (ds & fs & Heq & Hds & Hfs & Hsd & Hsf).
  exists ds, fs. split; [|split; [rewrite <- Heq; apply sort_children_perm|]].
  - unfold _list_files. cbv zeta. rewrite He, Hd, Hi. cbn [negb orb].
    rewrite <- Heq.
    destruct (sort_children cs) as [|c l] eqn:Hs.
    + exfalso. apply Hne. apply Permutation_nil. rewrite <- Hs.
      apply sort_children_perm.
    + reflexivity.
  - do 2 (split; [assumption|]).
    rewrite <- (sorted_same_kind true ds Hds), <- (sorted_same_kind false fs Hfs).
    split; assumption.
Qed.

Lemma list_files_dirs_first_witness :
  fs_demo.(fs_exists) (files_folder (Some "proj")) = true /\
  fs_demo.(fs_is_dir) (files_folder (Some "proj")) = true /\
  fs_demo.(fs_iterdir) (files_folder (Some "proj"))
    = Ok [("README.md", false); ("src", true); ("app.py", false); ("Assets", true)] /\
  exists ds fs,
    _list_files fs_demo (Some "proj")
    = Ok (fs_demo.(fs_resolve) (files_folder (Some "proj")) +:+ nl
          +:+ PyStr.join nl (map list_item (ds ++ fs)%list)) /\
    Permutation (ds ++ fs)%list [("README.md", false); ("src", true); ("app.py", false); ("Assets", true)] /\
    Forall (fun c => c.2 = true) ds /\ Forall (fun c => c.2 = false) fs /\
    sorted_by name_le ds = true /\ sorted_by name_le fs = true.
Proof.
  do 3 (split; [reflexivity|]).
  apply list_files_dirs_first; [reflexivity | reflexivity | reflexivity | discriminate].
Defined.

(* ------------------------------------------------------------------ *)
(** ** Retrieval memory *)

Lemma lstrip_split (s : string) :
  exists w, all_space w = true /\ s = w +:+ PyStr.lstrip s.
Proof.
  induction s as [|x s IH]; simpl.
  - exists "". split; reflexivity.
  - destruct (PyStr.is_space x) eqn:Hx.
    + destruct IH as (w & Hw & Hs). exists (String x w). simpl. rewrite Hx, Hw.
      split; [reflexivity|]. rewrite <- Hs. reflexivity.
    + exists "". split; reflexivity.
Qed.

Lemma strip_idem (s : string) : PyStr.strip (PyStr.strip s) = PyStr.strip s.
Proof.
  unfold PyStr.strip, PyStr.rstrip.
  set (A := PyStr.lstrip s). set (B := PyStr.lstrip (PyStr.rev_str A)).
  assert (HA : PyStr.lstrip A = A) by apply lstrip_idem.
  assert (HB : PyStr.lstrip B = B) by apply lstrip_idem.
  assert (HrB : PyStr.lstrip (PyStr.rev_str B) = PyStr.rev_str B).
  { destruct (lstrip_split (PyStr.rev_str A)) as (w & _ & Hw). fold B in Hw.
    assert (HA' : A = PyStr.rev_str B +:+ PyStr.rev_str w).
    { rewrite <- (rev_str_involutive A), Hw, rev_str_app. reflexivity. }
    destruct (PyStr.rev_str B) as [|c r] eqn:E; [reflexivity|].
    rewrite HA' in HA. simpl in HA |- *. apply lstrip_head in HA. rewrite HA. reflexivity. }
  rewrite HrB, rev_str_involutive, HB. reflexivity.
Qed.

(** X17: "/memories Q" lists, in the store's order, the non-empty
    documents of the first result list of the vector store, each behind
    "- "; when none is left, or when retrieval is switched off or no store
    exists, it answers that no memories were found. *)
Theorem memories_lists_documents (R : rag_env) (st : agent) (u : string) :
  PyStr.truthy (PyStr.strip (PyStr.drop 9 (PyStr.strip u))) = true ->
  (forall kv emb docs rest,
     st.(rag_enabled) = true -> R.(rag_collection) = true ->
     R.(ollama_embeddings) R.(rag_embed_model) (PyStr.strip (PyStr.drop 9 (PyStr.strip u)))
       = Ok (JObj kv) ->
     obj_get kv "embedding" = Some emb -> jtruthy emb = true ->
     R.(chroma_query) emb 6 = Ok (Some (docs :: rest)) ->
     fst (memories_branch R u st)
     = Ok (match List.filter PyStr.truthy docs with
           | [] => msg_no_memories
           | ds => "Retrieved memories:" +:+ nl +:+ PyStr.join nl (map (fun m => "- " +:+ m) ds)
           end)) /\
  (st.(rag_enabled) = false \/ R.(rag_collection) = false ->
   fst (memories_branch R u st) = Ok msg_no_memories).
Proof.
  set (q := PyStr.strip (PyStr.drop 9 (PyStr.strip u))).
  intros Hq. assert (Hsq : PyStr.strip q = q) by apply strip_idem.
  split.
  - intros kv emb docs rest He Hc Ho Hk Ht Hd.
    unfold memories_branch. fold q. rewrite Hq. cbn [negb].
    unfold rag_query, bind, get, ret, lift. rewrite He, Hc. cbn [negb].
    rewrite Hsq, Hq. cbn [negb].
    unfold _ollama_embed. rewrite Hsq, Hq. cbn [negb]. rewrite Ho, Hk, Ht. cbn [negb].
    rewrite Ht. cbn [negb]. cbn beta iota zeta. change (6 =? 0)%Z with false. cbn iota.
    rewrite Hd. cbv iota.
    destruct (List.filter PyStr.truthy docs); reflexivity.
  - intros Hoff. unfold memories_branch. fold q. rewrite Hq. cbn [negb].
    unfold rag_query, bind, get, ret.
    destruct Hoff as [H|H]; rewrite H; [reflexivity|].
    destruct (rag_enabled st); reflexivity.
Qed.

Lemma memories_lists_documents_witness :
  PyStr.truthy (PyStr.strip (PyStr.drop 9 (PyStr.strip "/memories  theme "))) = true /\
  fst (memories_branch rag_demo "/memories  theme " st0)
  = Ok (match List.filter PyStr.truthy ["likes dark mode"; ""; "uses python 3.12"] with
        | [] => msg_no_memories
        | ds => "Retrieved memories:" +:+ nl +:+ PyStr.join nl (map (fun m => "- " +:+ m) ds)
        end).
Proof.
  split; [reflexivity|].
  apply (proj1 (memories_lists_documents rag_demo st0 "/memories  theme " eq_refl)
           [("embedding", JArr [JNum 1; JNum 2])] (JArr [JNum 1; JNum 2])
           ["likes dark mode"; ""; "uses python 3.12"] []); reflexivity.
Defined.

(* ------------------------------------------------------------------ *)
(** ** The console loop *)

Lemma process_request_ok (E : env) (u : string) (st : agent) :
  env_exception_only E -> exists r st', process_request E u st = (Ok r, st').
Proof.
  intros HE. pose proof (request_body_no_base E u HE st) as Hb.
  unfold process_request, try_except.
  destruct (request_body E u st) as [[x|e] st']; simpl in *; [eauto|].
  rewrite Hb. eauto.
Qed.

Lemma chat_iter_no_exit (E : env) (fuel : nat) :
  env_exception_only E ->
  forall evs out st, Forall (fun ev => exit_line ev = false) evs ->
  exists out', fst (chat_iter E fuel evs out st) = Ok (false, out').
Proof.
  intros HE. induction fuel as [|n IH]; intros evs out st Hevs; simpl; [eauto|].
  assert (Hrest : Forall (fun ev => exit_line ev = false) (tl evs))
    by (destruct Hevs; simpl; [constructor | assumption]).
  assert (Hev : exit_line (match evs with [] => Eof | e :: _ => e end) = false)
    by (destruct Hevs; [reflexivity | assumption]).
  destruct (PyStr.truthy (get_input (match evs with [] => Eof | e :: _ => e end))); cbn [negb].
  2: apply IH, Hrest.
  unfold exit_line in Hev. rewrite Hev.
  destruct (String.eqb _ "help"); [apply IH, Hrest|].
  destruct (process_request_ok E (get_input (match evs with [] => Eof | e :: _ => e end)) st HE)
    as (r & st' & ->).
  apply IH, Hrest.
Qed.

(** X18: with collaborators that fail only with [Exception]s, the console
    loop leaves only on an "exit" or "quit" line: the end of the input and
    Ctrl-C at the prompt both read as an empty line and the loop prompts
    again, for as long as it runs. *)
Theorem chat_loop_exits_only_on_exit (E : env) (fuel : nat) (evs : list input_event)
    (st : agent) :
  env_exception_only E -> Forall (fun ev => exit_line ev = false) evs ->
  exists out, fst (chat_loop E fuel evs st) = Ok (false, out).
Proof. intros HE Hevs. apply chat_iter_no_exit; assumption. Qed.

Lemma chat_loop_exits_only_on_exit_witness :
  env_exception_only (env_fixed "Sure." "Hi.") /\
  Forall (fun ev => exit_line ev = false) [Line "hello"; Interrupt; Line "help"; Eof] /\
  exists out, fst (chat_loop (env_fixed "Sure." "Hi.") 12
                     [Line "hello"; Interrupt; Line "help"; Eof] st0) = Ok (false, out).
Proof.
  split; [apply env_fixed_exception_only|].
  split; [repeat constructor|].
  apply chat_loop_exits_only_on_exit; [apply env_fixed_exception_only | repeat constructor].
Defined.
